(** * asl-ml-immersion: the helper functions of three lab notebooks

    The repository is a set of Jupyter notebooks.  This development embeds
    the code cells that carry logic of their own:

    - the time-series lab: [clean_data], [_scale_features],
      [create_features], [_create_split], [create_query], the inline
      [bq_query], the train/valid/test CSV export loop and the plot of a
      few examples;
    - the CI/CD lab: the [cloudbuild_vertex.yaml] cell and the
      [SUBSTITUTIONS] cell;
    - the DCGAN lab: [train_step], [train], [generate_and_save_images],
      [display_image] and the animation cell.

    Calls into pandas, BigQuery, TensorFlow and matplotlib are either
    written out (where the notebooks rely on a documented behaviour of the
    call) or taken as section variables (numeric kernels, the query
    service, the networks).  The labs leave some lines for the learner:
    the fields of the first Cloud Build step and the list of images are
    kept as the nulls they are, and the missing line of [train_step] is a
    section variable.  Files are a finite map from paths to what they
    hold; permissions and capacity are not modelled. *)

From Stdlib Require Import ZArith Lia List Ascii String DecimalString.
From Stdlib Require DecimalNat.
From stdpp Require Import base option list strings gmap.

Local Open Scope string_scope.
Local Open Scope Z_scope.

(** ** Python values shared by the notebooks *)

Module Py.

(** The built-in exceptions the modelled cells can raise. *)
Inductive exn : Type :=
| KeyError
| TypeError
| ValueError
| IndexError.

Inductive result (A : Type) : Type :=
| Ok (a : A)
| Raise (e : exn).
Arguments Ok {A} a.
Arguments Raise {A} e.

#[export] Instance result_ret : MRet result := fun A a => Ok a.
#[export] Instance result_bind : MBind result := fun A B k r =>
  match r with
  | Ok a => k a
  | Raise e => Raise e
  end.

Definition nl : string := String (ascii_of_nat 10) EmptyString.

(** A triple-quoted literal, given line by line. *)
Definition text (lines : list string) : string := String.concat nl lines.

(** [template.format(a, b, ...)] for templates whose only fields are the
    automatically numbered [{}]. *)
Fixpoint format (template : string) (args : list string) : result string :=
  match template with
  | EmptyString => Ok EmptyString
  | String "{" (String "}" rest) =>
      match args with
      | a :: args' => s ← format rest args'; Ok (a +:+ s)
      | [] => Raise IndexError
      end
  | String c rest => s ← format rest args; Ok (String c s)
  end.

(** Substring tests, used to inspect query texts and build files. *)
Fixpoint is_prefix (p s : string) : bool :=
  match p, s with
  | EmptyString, _ => true
  | String a p', String b s' => Ascii.eqb a b && is_prefix p' s'
  | String _ _, EmptyString => false
  end.

Fixpoint contains (p s : string) : bool :=
  is_prefix p s ||
  match s with
  | EmptyString => false
  | String _ s' => contains p s'
  end.

Definition is_digit (c : ascii) : bool :=
  let n := nat_of_ascii c in (48 <=? n)%nat && (n <=? 57)%nat.
Definition is_upper (c : ascii) : bool :=
  let n := nat_of_ascii c in (65 <=? n)%nat && (n <=? 90)%nat.
Definition is_lower (c : ascii) : bool :=
  let n := nat_of_ascii c in (97 <=? n)%nat && (n <=? 122)%nat.
Definition is_word_char (c : ascii) : bool :=
  is_digit c || is_upper c || is_lower c || Ascii.eqb c "_".

Definition upper_char (c : ascii) : ascii :=
  if is_lower c then ascii_of_nat (nat_of_ascii c - 32) else c.

(** [words_from acc s]: the maximal runs of word characters of [s], in
    order; [acc] is the current run, reversed. *)
Definition flush (acc : list ascii) (k : list string) : list string :=
  match acc with
  | [] => k
  | _ => string_of_list_ascii (rev acc) :: k
  end.

Fixpoint words_from (acc : list ascii) (s : string) : list string :=
  match s with
  | EmptyString => flush acc []
  | String c s' =>
      if is_word_char c then words_from (c :: acc) s'
      else flush acc (words_from [] s')
  end.

Definition words (s : string) : list string := words_from [] s.

Definition upper (s : string) : string :=
  string_of_list_ascii (map upper_char (list_ascii_of_string s)).

Definition lower_char (c : ascii) : ascii :=
  if is_upper c then ascii_of_nat (nat_of_ascii c + 32) else c.

(** [s.lower()] for a text of ASCII characters; the case of other
    letters is not modelled. *)
Definition lower (s : string) : string :=
  string_of_list_ascii (map lower_char (list_ascii_of_string s)).

Definition is_ascii (s : string) : bool :=
  forallb (fun c => (nat_of_ascii c <? 128)%nat) (list_ascii_of_string s).

(** [str(n)] for a natural number. *)
Definition str (n : nat) : string := NilEmpty.string_of_uint (Nat.to_uint n).

(** [str(n).zfill(width)]: what the format fields 04d and 02d print. *)
Definition zfill (width : nat) (n : nat) : string :=
  let s := str n in
  string_of_list_ascii (repeat "0"%char (width - String.length s)) +:+ s.

End Py.

Import Py.

(** ** Failures outside the built-in lookups *)

Module Os.

(** What a cell that touches files or unbound names can fail with, beside
    the exceptions of [Py.exn].  [OSError] stands for an OSError that is
    neither of the two subclasses named here (pandas' own, or
    NotADirectoryError from [open]); [OpError] is the base class of the
    errors TensorFlow raises. *)
Inductive failure : Type :=
| Builtin (e : exn)
| FileNotFoundError
| IsADirectoryError
| NameError
| OSError
| OpError.

Inductive outcome (A : Type) : Type :=
| Returned (a : A)
| Failed (e : failure).
Arguments Returned {A} a.
Arguments Failed {A} e.

#[export] Instance outcome_ret : MRet outcome := fun A a => Returned a.
#[export] Instance outcome_bind : MBind outcome := fun A B k r =>
  match r with
  | Returned a => k a
  | Failed e => Failed e
  end.

Definition lift {A : Type} (r : result A) : outcome A :=
  match r with
  | Ok a => Returned a
  | Raise e => Failed (Builtin e)
  end.

End Os.

(** ** The time-series lab *)

Module TimeSeries.
Import Os.

(** *** Train/valid/test split queries *)

(** The [floor, ceiling] pair chosen by [_create_split]: the TRAIN pair
    is assigned first and overwritten for VALID and TEST. *)
Definition split_bounds (phase : string) : string * string :=
  let '(floor, ceiling) := ("2002-11-01", "2010-07-01") in
  if String.eqb phase "VALID" then ("2010-07-01", "2011-09-01")
  else if String.eqb phase "TEST" then ("2011-09-01", "2012-11-30")
  else (floor, ceiling).

Definition split_template : string :=
  text [""; "    WHERE Date >= '{}'"; "    AND Date < '{}'"; "    "].

Definition _create_split (phase : string) : result string :=
  let '(floor, ceiling) := split_bounds phase in
  format split_template [floor; ceiling].

Definition basequery : string :=
  text [""; "    #standardSQL"; "    SELECT"; "      symbol,";
        "      Date,"; "      direction,"; "      close_values_prior_260";
        "    FROM"; "      `stock_market.eps_percent_change_sp500`";
        "    "].

Definition create_query (phase : string) : result string :=
  split ← _create_split phase;
  Ok (basequery +:+ split).

(** The query of the exploration cell. *)
Definition bq_query : string :=
  text [""; "#standardSQL"; "SELECT"; "  symbol,"; "  Date,";
        "  direction,"; "  close_values_prior_260"; "FROM";
        "  `stock_market.eps_percent_change_sp500`"; "LIMIT"; "  100"; ""].


(** *** Calendar dates, as the [Date] column and the split bounds use them *)

Record date : Type := Date { year : Z; month : Z; day : Z }.

Definition date_ltb (a b : date) : bool :=
  (year a <? year b)
  || ((year a =? year b)
      && ((month a <? month b)
          || ((month a =? month b) && (day a <? day b)))).

Definition date_leb (a b : date) : bool := negb (date_ltb b a).

Definition digit (c : ascii) : option Z :=
  if is_digit c then Some (Z.of_nat (nat_of_ascii c) - 48) else None.

(** A date literal of the form YYYY-MM-DD, as SQL reads the bounds. *)
Definition parse_date (s : string) : option date :=
  match list_ascii_of_string s with
  | [y1; y2; y3; y4; "-"%char; m1; m2; "-"%char; d1; d2] =>
      y1 ← digit y1; y2 ← digit y2; y3 ← digit y3; y4 ← digit y4;
      m1 ← digit m1; m2 ← digit m2; d1 ← digit d1; d2 ← digit d2;
      Some (Date (1000 * y1 + 100 * y2 + 10 * y3 + y4)
                 (10 * m1 + m2) (10 * d1 + d2))
  | _ => None
  end.

(** [WHERE Date >= floor AND Date < ceiling] on a row dated [d]. *)
Definition in_range (floor ceiling : string) (d : date) : bool :=
  match parse_date floor, parse_date ceiling with
  | Some f, Some c => date_leb f d && date_ltb d c
  | _, _ => false
  end.

(** The rows a phase's split selects. *)
Definition in_split (phase : string) (d : date) : bool :=
  let '(floor, ceiling) := split_bounds phase in in_range floor ceiling d.

(** *** Properties of the query texts *)

(** The clause the documentation of [_create_split] describes, written
    out for given bounds. *)
Definition where_clause (floor ceiling : string) : string :=
  nl +:+ "    WHERE Date >= '" +:+ floor +:+ "'" +:+ nl +:+
  "    AND Date < '" +:+ ceiling +:+ "'" +:+ nl +:+ "    ".

Definition split_clause (phase : string) : string :=
  if decide (phase = "VALID") then where_clause "2010-07-01" "2011-09-01"
  else if decide (phase = "TEST") then where_clause "2011-09-01" "2012-11-30"
  else where_clause "2002-11-01" "2010-07-01".

(** Keywords that start a data-modification or data-definition statement. *)
Definition write_keywords : list string :=
  ["INSERT"; "UPDATE"; "DELETE"; "MERGE"; "TRUNCATE"; "CREATE"; "DROP";
   "ALTER"; "GRANT"; "REVOKE"; "CALL"; "EXPORT"; "LOAD"].

Definition keywords (q : string) : list string := map upper (words q).

Definition count_word (w : string) (ws : list string) : nat :=
  length (filter (fun x => x = w) ws).

(** The two words after each FROM: dataset and table. *)
Fixpoint from_targets (ws : list string) : list (string * string) :=
  match ws with
  | w :: ws' =>
      match ws' with
      | ds :: tbl :: _ =>
          if String.eqb (upper w) "FROM" then (ds, tbl) :: from_targets ws'
          else from_targets ws'
      | _ => []
      end
  | [] => []
  end.

(** One statement, a SELECT, in the #standardSQL dialect, whose only FROM
    reads the quoted [dataset.table], with no keyword of a writing
    statement anywhere. *)
Definition read_only_select (dataset table q : string) : bool :=
  contains "#standardSQL" q
  && bool_decide (count_word "SELECT" (keywords q) = 1%nat)
  && negb (contains ";" q)
  && forallb (fun w => bool_decide (count_word w (keywords q) = 0%nat))
             write_keywords
  && bool_decide (from_targets (words q) = [(dataset, table)])
  && contains ("`" +:+ dataset +:+ "." +:+ table +:+ "`") q.

(** *** Dataframes *)

(** A float64 value: a finite one is [m * 2 ^ e]. *)
Inductive float64 : Type :=
| Finite (m e : Z)
| PosInf
| NegInf
| NaN.

(** What a dataframe cell can hold in this notebook.  [CNA] stands for
    pandas' missing values: None, NaN in an object column and NaT. *)
Inductive cell : Type :=
| CNA
| CStr (s : string)
| CInt (n : Z)
| CFloat (x : float64)
| CDate (d : date)
| CList (l : list float64).

Definition Series : Type := list cell.

(** A dataframe: its columns in order, each a name and the values of the
    rows.  The row index is the default one and is left implicit. *)
Definition DataFrame : Type := list (string * Series).

Definition column_names (df : DataFrame) : list string := map fst df.

(** [df[name]] *)
Fixpoint getitem (df : DataFrame) (name : string) : result Series :=
  match df with
  | [] => Raise KeyError
  | (n, s) :: df' => if String.eqb n name then Ok s else getitem df' name
  end.

(** [df[name] = s]: replaces the column in place, or appends a new one. *)
Fixpoint setitem (df : DataFrame) (name : string) (s : Series) : DataFrame :=
  match df with
  | [] => [(name, s)]
  | (n, s0) :: df' =>
      if String.eqb n name then (n, s) :: df'
      else (n, s0) :: setitem df' name s
  end.

Definition float_is_inf_or_na (x : float64) : bool :=
  match x with
  | Finite _ _ => false
  | _ => true
  end.

Definition cell_is_inf_or_na (c : cell) : bool :=
  match c with
  | CNA => true
  | CFloat x => float_is_inf_or_na x
  | CList l => existsb float_is_inf_or_na l
  | _ => false
  end.

(** Some value of the frame is inf or NA. *)
Definition has_inf_or_na (df : DataFrame) : bool :=
  existsb (fun col => existsb cell_is_inf_or_na (snd col)) df.

(** *** [clean_data] *)

(** [strftime("%Y-%m-%d")]; pandas timestamps have four-digit years. *)
Definition strftime_Ymd (d : date) : string :=
  zfill 4 (Z.to_nat (year d)) +:+ "-" +:+ zfill 2 (Z.to_nat (month d))
  +:+ "-" +:+ zfill 2 (Z.to_nat (day d)).

(** The dictionary of the label lambda. *)
Definition direction_codes : gmap string Z :=
  {[ "DOWN" := 0; "STAY" := 1; "UP" := 2 ]}.

(** [lambda x: {"DOWN": 0, "STAY": 1, "UP": 2}[x]]: a key that is not in
    the dictionary raises KeyError, a list is unhashable and raises
    TypeError. *)
Definition direction_code (x : cell) : result cell :=
  match x with
  | CStr s =>
      match direction_codes !! s with
      | Some n => Ok (CInt n)
      | None => Raise KeyError
      end
  | CList _ => Raise TypeError
  | _ => Raise KeyError
  end.

Section CleanData.

(** [pd.to_datetime(..., errors="coerce")] on one value: the timestamp
    it denotes, or [None] for NaT when it denotes none. *)
Variable to_datetime : cell -> option date.

Definition to_datetime_coerce (c : cell) : cell :=
  match to_datetime c with
  | Some d => CDate d
  | None => CNA
  end.

(** [.dt.strftime] on a datetime column: NaT gives NaN. *)
Definition dt_strftime (c : cell) : cell :=
  match c with
  | CDate d => CStr (strftime_Ymd d)
  | _ => CNA
  end.

Definition clean_data (input_df : DataFrame) : result DataFrame :=
  let df := input_df in
  date ← getitem df "Date";
  let df := setitem df "Date" (map to_datetime_coerce date) in
  date ← getitem df "Date";
  let df := setitem df "Date" (map dt_strftime date) in
  direction ← getitem df "direction";
  direction_numeric ← mapM direction_code direction;
  Ok (setitem df "direction_numeric" direction_numeric).

End CleanData.

(** *** [_scale_features] and [create_features] *)

Definition STOCK_HISTORY_COLUMN : string := "close_values_prior_260".
Definition COL_NAMES : list string :=
  map (fun day => "day_" +:+ str day) (seq 0 260).
Definition LABEL : string := "direction_numeric".

(** [pd.Series(x)] for one value of the history column: a list gives its
    elements, a missing value no element, any other value itself. *)
Definition pd_Series (x : cell) : list cell :=
  match x with
  | CList l => map CFloat l
  | CNA => []
  | _ => [x]
  end.

Definition frame_width (rows : list (list cell)) : nat :=
  foldr (fun row w => Nat.max (length row) w) 0%nat rows.

(** The frame [s.apply(pd.Series)] builds from a non-empty series: one
    row per value, as many columns as the longest row, shorter rows
    filled with NaN.  The columns are returned unnamed, in order. *)
Definition expand (s : Series) : list Series :=
  let rows := map pd_Series s in
  map (fun j => map (fun row => nth j row CNA) rows)
      (seq 0 (frame_width rows)).

(** [frame.columns = names]: a different number of names raises
    ValueError. *)
Definition set_columns (cols : list Series) (names : list string)
  : result DataFrame :=
  if Nat.eqb (length cols) (length names) then Ok (zip names cols)
  else Raise ValueError.

(** [pd.concat([frame, series], axis=1)] for a frame and a named series
    over the same rows. *)
Definition concat_columns (frame : DataFrame) (name : string) (s : Series)
  : DataFrame :=
  (frame ++ [(name, s)])%list.

Section Features.

(** The float64 kernels of pandas: column mean and standard deviation
    (both skip NaN), subtraction, division and the conversion of an
    integer. *)
Variables (mean std : list float64 -> float64).
Variables (fsub fdiv : float64 -> float64 -> float64).
Variable of_int : Z -> float64.

(** A value of a numeric column; other values do not reduce. *)
Definition to_float (c : cell) : result float64 :=
  match c with
  | CFloat x => Ok x
  | CInt n => Ok (of_int n)
  | CNA => Ok NaN
  | _ => Raise TypeError
  end.

(** [(col - col.mean()) / col.std()] *)
Definition scale_column (col : Series) : result Series :=
  xs ← mapM to_float col;
  let avg := mean xs in
  let std := std xs in
  Ok (map (fun x => CFloat (fdiv (fsub x avg) std)) xs).

Definition _scale_features (df : DataFrame) : result DataFrame :=
  mapM (fun col => s ← scale_column (snd col); Ok (fst col, s)) df.

Definition create_features (df : DataFrame) (label_name : string)
  : result DataFrame :=
  history ← getitem df STOCK_HISTORY_COLUMN;
  match history with
  | [] =>
      (* On an empty series apply returns an empty series, not a frame:
         the assignment to columns sets a plain attribute, scaling
         leaves it empty, and concat makes it a column of its own. *)
      label_column ← getitem df LABEL;
      Ok (concat_columns [(STOCK_HISTORY_COLUMN, [])] LABEL label_column)
  | _ :: _ =>
      let time_series_features := expand history in
      time_series_features ← set_columns time_series_features COL_NAMES;
      time_series_features ← _scale_features time_series_features;
      label_column ← getitem df LABEL;
      Ok (concat_columns time_series_features LABEL label_column)
  end.

End Features.

(** *** The export loop *)

(** A path of the notebook's file system holds a directory or a CSV file;
    for a CSV file we keep the frame that was written, without row index
    ([index=False]). *)
Inductive node : Type :=
| Directory
| CsvFile (df : DataFrame).

Definition csv_path (phase : string) : string :=
  "../data/stock-" +:+ lower phase +:+ ".csv".

(** [if not os.path.exists("../data"): os.mkdir("../data")] *)
Definition ensure_data_dir (fs : gmap string node) : gmap string node :=
  match fs !! "../data" with
  | Some _ => fs
  | None => <["../data" := Directory]> fs
  end.

(** [df.to_csv(path, index=False)] for a path in ../data: the file is
    opened for writing, which fails when ../data is not a directory or
    when the path is one; nothing is written then. *)
Definition to_csv (fs : gmap string node) (path : string) (df : DataFrame)
  : outcome (gmap string node) :=
  match fs !! "../data" with
  | Some Directory =>
      match fs !! path with
      | Some Directory => Failed IsADirectoryError
      | _ => Returned (<[path := CsvFile df]> fs)
      end
  | Some (CsvFile _) => Failed OSError
  | None => Failed FileNotFoundError
  end.

Section ExportLoop.

Variable to_datetime : cell -> option date.
Variables (mean std : list float64 -> float64).
Variables (fsub fdiv : float64 -> float64 -> float64).
Variable of_int : Z -> float64.

(** [bq.query(q).to_dataframe()] *)
Variable run_query : string -> DataFrame.

(** Steps 1 to 3 of the loop body: query, load, clean, preprocess. *)
Definition prepare (phase : string) : result DataFrame :=
  query_string ← create_query phase;
  let df := run_query query_string in
  df ← clean_data to_datetime df;
  create_features mean std fsub fdiv of_int df "direction_numeric".

(** One iteration: the file system it leaves and the exception that ended
    it, if any.  The directory is made after the frame is ready and before
    the file is opened, so a failing [to_csv] leaves a directory it has
    just made.  The printed line is left out. *)
Definition export_phase (fs : gmap string node) (phase : string)
  : gmap string node * option failure :=
  match prepare phase with
  | Raise e => (fs, Some (Builtin e))
  | Ok df =>
      let fs := ensure_data_dir fs in
      match to_csv fs (csv_path phase) df with
      | Returned fs' => (fs', None)
      | Failed e => (fs, Some e)
      end
  end.

(** [for phase in phases: ...]: the file system when the loop ends, and
    the exception that ended it, if any. *)
Fixpoint export_loop (phases : list string) (fs : gmap string node)
  : gmap string node * option failure :=
  match phases with
  | [] => (fs, None)
  | phase :: phases' =>
      match export_phase fs phase with
      | (fs', None) => export_loop phases' fs'
      | (fs', Some e) => (fs', Some e)
      end
  end.

Definition export_cell (fs : gmap string node)
  : gmap string node * option failure :=
  export_loop ["TRAIN"; "VALID"; "TEST"] fs.

End ExportLoop.

(** *** Properties of frames and of the file system *)

(** The three labels the documentation of [clean_data] names. *)
Definition valid_direction (c : cell) : Prop :=
  c = CStr "DOWN" \/ c = CStr "STAY" \/ c = CStr "UP".

(** Values that can be looked up in a dictionary: all but lists. *)
Definition hashable (c : cell) : Prop :=
  match c with
  | CList _ => False
  | _ => True
  end.

(** Values of a Date column that [pd.to_datetime] turns into a datetime
    column whatever the other rows hold: dates and missing values, as a
    DATE column of BigQuery gives them. *)
Definition date_or_missing (c : cell) : Prop :=
  match c with
  | CNA | CDate _ => True
  | _ => False
  end.

(** "[clean_data] raises KeyError exactly when the direction column holds
    a value other than the three labels", as a property of one frame. *)
Definition KeyError_iff_bad_direction
           (to_datetime : cell -> option date) (df : DataFrame) : Prop :=
  clean_data to_datetime df = Raise KeyError <->
  exists direction c,
    getitem df "direction" = Ok direction /\ c ∈ direction /\
    ~ valid_direction c.

(** Every exception a call raises is one of [es]. *)
Definition raises_only {A : Type} (r : result A) (es : list exn) : Prop :=
  forall e, r = Raise e -> e ∈ es.

(** The same for a cell that ends with [Some] failure or with none. *)
Definition fails_only (ending : option failure) (es : list failure) : Prop :=
  forall e, ending = Some e -> e ∈ es.

(** "Nothing is written": running a cell leaves the file system as it
    found it. *)
Definition transient
           (run : gmap string node -> gmap string node * option failure)
  : Prop :=
  forall fs, fst (run fs) = fs.

(** *** Functions of the notebook and the session they run in *)

(** A function of the notebook, run in a session state [W]: it gets the
    state and its argument and gives its result and the new state. *)
Record notebook_function (W : Type) : Type := NotebookFunction {
  fn_name : string;
  fn_arg : Type;
  fn_res : Type;
  fn_run : W -> fn_arg -> fn_res * W
}.
Arguments NotebookFunction {W} fn_name {fn_arg fn_res} fn_run.
Arguments fn_name {W}.
Arguments fn_arg {W}.
Arguments fn_res {W}.
Arguments fn_run {W}.

(** The result is a function of the argument alone and the state is left
    as it was. *)
Definition deterministic_pure {W : Type} (f : notebook_function W) : Prop :=
  exists g : fn_arg f -> fn_res f, forall w a, fn_run f w a = (g a, w).

(** What a global name of the session is bound to: a function from a
    string to a string, or a value that cannot be called. *)
Inductive global : Type :=
| GFunction (f : string -> result string)
| GValue (v : string).

(** The globals of a session, by name. *)
Definition namespace : Type := gmap string global.

(** [name(arg)] for a global name: an unbound name raises NameError, a
    value that is not a function TypeError. *)
Definition call_global (w : namespace) (name : string) (arg : string)
  : outcome string :=
  match w !! name with
  | Some (GFunction f) => lift (f arg)
  | Some (GValue _) => Failed (Builtin TypeError)
  | None => Failed NameError
  end.

(** [_create_split] run in a session: its body names no global, only its
    argument, literals and [str.format]. *)
Definition _create_split_fn : notebook_function namespace :=
  NotebookFunction "_create_split"
    (fun w phase => (lift (_create_split phase), w)).

(** [create_query] run in a session: [basequery] is a local of the body,
    and the name [_create_split] is looked up in the globals at the time
    of the call. *)
Definition create_query_in (w : namespace) (phase : string) : outcome string :=
  split ← call_global w "_create_split" phase;
  Returned (basequery +:+ split).

Definition create_query_fn : notebook_function namespace :=
  NotebookFunction "create_query" (fun w phase => (create_query_in w phase, w)).

(** "No function of the notebook is deterministic and pure". *)
Definition no_testable_contract {W : Type} (fs : list (notebook_function W))
  : Prop :=
  Forall (fun f => ~ deterministic_pure f) fs.

End TimeSeries.

(** ** The CI/CD lab *)

Module CloudBuild.

#[local] Set Warnings "-register-all".

(** A YAML document as the file cell writes it.  A comment line that
    heads a node is kept with it; a key whose value is left as a TODO
    comment has the value null.  A TODO inside a block scalar is text. *)
Inductive yaml : Type :=
| YNull
| YStr (s : string)
| YSeq (items : list yaml)
| YMap (entries : list (string * yaml))
| YComment (heading : string) (node : yaml).

Definition kfp_cli : string := "gcr.io/$PROJECT_ID/kfp-cli-vertex".

Definition cloudbuild_vertex : yaml :=
  YMap
    [("steps",
      YSeq
        [YComment "Build the trainer image"
           (YMap [("name", YNull); ("args", YNull); ("dir", YNull)]);
         YComment "Compile the pipeline"
           (YMap
              [("name", YStr kfp_cli);
               ("args", YSeq [YStr "-c"; YStr ("dsl-compile-v2 # TODO" +:+ nl)]);
               ("env",
                YSeq
                  [YStr "PIPELINE_ROOT=gs://$PROJECT_ID-vertex/pipeline";
                   YStr "PROJECT_ID=$PROJECT_ID";
                   YStr "REGION=$_REGION";
                   YStr "SERVING_CONTAINER_IMAGE_URI=us-docker.pkg.dev/vertex-ai/prediction/sklearn-cpu.0-20:latest";
                   YStr "TRAINING_CONTAINER_IMAGE_URI=gcr.io/$PROJECT_ID/trainer_image_covertype_vertex:latest";
                   YStr "TRAINING_FILE_PATH=gs://$PROJECT_ID-vertex/data/training/dataset.csv";
                   YStr "VALIDATION_FILE_PATH=gs://$PROJECT_ID-vertex/data/validation/dataset.csv"]);
               ("dir", YStr "pipeline_vertex")]);
         YComment "Run the pipeline"
           (YMap
              [("name", YStr kfp_cli);
               ("args",
                YSeq [YStr "-c";
                      YStr ("python kfp-cli_vertex/run_pipeline.py  # TODO"
                            +:+ nl)])])]);
     ("images",
      YComment "Push the images to Container Registry"
        (YComment
           "TODO: List the images to be pushed to the project Docker registry"
           YNull));
     ("timeout",
      YComment
        "This is required since the pipeline run overflows the default timeout"
        (YStr "10800s"))].

Definition REGION : string := "us-central1".

(** The cell [SUBSTITUTIONS = f"_REGION={REGION}"]. *)
Definition SUBSTITUTIONS : string := "_REGION=" +:+ REGION.

(** The command line of the submit cell. *)
Definition builds_submit : list string :=
  ["gcloud"; "builds"; "submit"; "."; "--config"; "cloudbuild_vertex.yaml";
   "--substitutions"; SUBSTITUTIONS].

(** The value of a command-line option. *)
Fixpoint option_value (opt : string) (argv : list string) : option string :=
  match argv with
  | a :: argv' =>
      if String.eqb a opt then head argv' else option_value opt argv'
  | [] => None
  end.

(** *** Reading the document *)

Fixpoint strip (y : yaml) : yaml :=
  match y with
  | YComment _ y' => strip y'
  | _ => y
  end.

Fixpoint headings (y : yaml) : list string :=
  match y with
  | YComment h y' => h :: headings y'
  | _ => []
  end.

Fixpoint lookup_key (k : string) (es : list (string * yaml)) : option yaml :=
  match es with
  | [] => None
  | (k', v) :: es' => if String.eqb k' k then Some v else lookup_key k es'
  end.

Definition field (k : string) (y : yaml) : option yaml :=
  match strip y with
  | YMap es => lookup_key k es
  | _ => None
  end.

Definition keys (y : yaml) : list string :=
  match strip y with
  | YMap es => map fst es
  | _ => []
  end.

Definition items (y : yaml) : list yaml :=
  match strip y with
  | YSeq l => l
  | _ => []
  end.

Definition scalar (y : yaml) : option string :=
  match strip y with
  | YStr s => Some s
  | _ => None
  end.

(** Every string scalar of a document, in order. *)
Fixpoint scalars (y : yaml) : list string :=
  match y with
  | YNull => []
  | YStr s => [s]
  | YSeq l => flat_map scalars l
  | YMap es => flat_map (fun e => scalars (snd e)) es
  | YComment _ y' => scalars y'
  end.

Definition step_list (cfg : yaml) : list yaml :=
  match field "steps" cfg with
  | Some y => items y
  | None => []
  end.

Definition image_list (cfg : yaml) : list string :=
  match field "images" cfg with
  | Some y => omap scalar (items y)
  | None => []
  end.

(** The builder of a step and the script it passes to it. *)
Definition builder (step : yaml) : option string :=
  y ← field "name" step; scalar y.

Definition script (step : yaml) : list string :=
  match field "args" step with
  | Some y => omap scalar (items y)
  | None => []
  end.

(** *** Substitution variables *)

Definition is_var_char (c : ascii) : bool :=
  is_upper c || is_digit c || Ascii.eqb c "_".

Definition close_var (acc : option (list ascii)) (k : list string)
  : list string :=
  match acc with
  | Some (c :: a) => string_of_list_ascii (rev (c :: a)) :: k
  | _ => k
  end.

Definition open_var (c : ascii) : option (list ascii) :=
  if Ascii.eqb c "$" then Some [] else None.

(** The names written as [$NAME] in a string, in order. *)
Fixpoint vars_from (acc : option (list ascii)) (s : string) : list string :=
  match s with
  | EmptyString => close_var acc []
  | String c s' =>
      match acc with
      | Some a =>
          if is_var_char c then vars_from (Some (c :: a)) s'
          else close_var acc (vars_from (open_var c) s')
      | None => vars_from (open_var c) s'
      end
  end.

Definition substitution_variables (cfg : yaml) : list string :=
  remove_dups (flat_map (vars_from None) (scalars cfg)).

(** User-defined substitutions start with an underscore; the others are
    the ones Cloud Build provides. *)
Definition user_defined (v : string) : bool := is_prefix "_" v.

(** The keys of a [KEY=VALUE,KEY=VALUE] substitutions argument. *)
Fixpoint split_on (sep : ascii) (acc : list ascii) (s : string)
  : list string :=
  match s with
  | EmptyString => [string_of_list_ascii (rev acc)]
  | String c s' =>
      if Ascii.eqb c sep then
        string_of_list_ascii (rev acc) :: split_on sep [] s'
      else split_on sep (c :: acc) s'
  end.

Definition supplied_keys (substitutions : string) : list string :=
  omap (fun kv => head (split_on "=" [] kv)) (split_on "," [] substitutions).

(** *** The workflow the notebook describes *)

(** A step that runs, on the builder [image], a script that mentions
    [command]. *)
Definition runs_on (image command : string) (step : yaml) : Prop :=
  builder step = Some image
  /\ existsb (contains command) (script step) = true.

(** "Build the trainer image, compile the pipeline, run the pipeline, push
    the listed images": three steps in this order, each naming a builder,
    the second and third as described, and a list of images to push. *)
Definition workflow_as_described (cfg : yaml) : Prop :=
  exists build compile run,
    step_list cfg = [build; compile; run]
    /\ is_Some (builder build)
    /\ runs_on kfp_cli "dsl-compile-v2" compile
    /\ runs_on kfp_cli "run_pipeline.py" run
    /\ image_list cfg <> [].

End CloudBuild.

(** ** The DCGAN lab *)

Module DCGAN.
Import Os.

Inductive network : Type := Generator | Discriminator.

Definition checkpoint_dir : string := "./gan_training_checkpoints".
(** [os.path.join(checkpoint_dir, "ckpt")] *)
Definition checkpoint_prefix : string := checkpoint_dir +:+ "/" +:+ "ckpt".

(** The directory of the figures; no cell of the notebook makes it. *)
Definition images_dir : string := "./gan_images".

(** The path [generate_and_save_images] formats for an epoch. *)
Definition image_path (epoch : nat) : string :=
  "./gan_images/image_at_epoch_" +:+ zfill 4 epoch +:+ ".png".

Section Training.

(** Tensors, the variables of a network, the gradients with respect to
    them, the state of an Adam optimizer and the state of the random
    generator. *)
Variables (tensor variables gradients adam rng : Type).

(** [tf.random.normal([BATCH_SIZE, noise_dim])]: a batch and the
    generator state after the draw. *)
Variable random_normal : rng -> tensor * rng.

(** The two networks called with [training=True]: the output, and the
    variables after the pass (layers such as batch normalisation update
    their statistics). *)
Variable generator_train : variables -> tensor -> tensor * variables.
Variable discriminator_train : variables -> tensor -> tensor * variables.

(** The generator called with [training=False]. *)
Variable generator_predict : variables -> tensor -> tensor.

(** The two loss functions; their bodies are exercises. *)
Variable generator_loss : tensor -> tensor.
Variable discriminator_loss : tensor -> tensor -> tensor.

(** [tape.gradient(target, sources)]: the gradient of [target], at the
    variables the taped block ran with, of the block as a function of
    those variables. *)
Variable tape_gradient : tensor -> (variables -> tensor) -> variables -> gradients.

(** [optimizer.apply_gradients(zip(grads, vars))] *)
Variable apply_gradients : adam -> gradients -> variables -> adam * variables.

(** [predictions.shape[0]] *)
Variable examples : tensor -> nat.

(** What a path of the disk holds: a directory or a saved figure. *)
Inductive entry : Type :=
| Folder
| Figure (predictions : tensor).

(** What the framework is asked to do beside reading and writing the
    globals, in order.  Each call below records itself. *)
Inductive event : Type :=
| RandomNormal (noise : tensor)
| Call (net : network) (input : tensor)
| ApplyGradients (net : network) (g : gradients)
| ClearOutput
| CheckpointSave (file_prefix : string) (generator discriminator : variables)
                 (generator_optimizer discriminator_optimizer : adam).

(** The globals of the notebook that training reads and writes. *)
Record globals : Type := Globals {
  generator : variables;
  discriminator : variables;
  generator_optimizer : adam;
  discriminator_optimizer : adam;
  random_state : rng
}.

Definition with_generator (g : variables) (m : globals) : globals :=
  Globals g (discriminator m) (generator_optimizer m)
          (discriminator_optimizer m) (random_state m).

Definition with_discriminator (d : variables) (m : globals) : globals :=
  Globals (generator m) d (generator_optimizer m)
          (discriminator_optimizer m) (random_state m).

Definition with_generator_optimizer (o : adam) (m : globals) : globals :=
  Globals (generator m) (discriminator m) o
          (discriminator_optimizer m) (random_state m).

Definition with_discriminator_optimizer (o : adam) (m : globals) : globals :=
  Globals (generator m) (discriminator m) (generator_optimizer m) o
          (random_state m).

Definition with_random_state (r : rng) (m : globals) : globals :=
  Globals (generator m) (discriminator m) (generator_optimizer m)
          (discriminator_optimizer m) r.

(** A running notebook: its globals, what it has asked of the framework
    and the disk. *)
Record session : Type := Session {
  names : globals;
  log : list event;
  disk : gmap string entry
}.

Definition set_names (m : globals) (s : session) : session :=
  Session m (log s) (disk s).

Definition emit (evs : list event) (s : session) : session :=
  Session (names s) (log s ++ evs)%list (disk s).

Definition set_disk (d : gmap string entry) (s : session) : session :=
  Session (names s) (log s) d.

(** *** The calls of one training step *)

Definition tf_random_normal (s : session) : tensor * session :=
  let draw := random_normal (random_state (names s)) in
  (fst draw,
   emit [RandomNormal (fst draw)]
        (set_names (with_random_state (snd draw) (names s)) s)).

(** [net(input, training=True)] *)
Definition call (net : network) (input : tensor) (s : session)
  : tensor * session :=
  match net with
  | Generator =>
      let pass := generator_train (generator (names s)) input in
      (fst pass,
       emit [Call Generator input]
            (set_names (with_generator (snd pass) (names s)) s))
  | Discriminator =>
      let pass := discriminator_train (discriminator (names s)) input in
      (fst pass,
       emit [Call Discriminator input]
            (set_names (with_discriminator (snd pass) (names s)) s))
  end.

(** [optimizer.apply_gradients(zip(grads, net.trainable_variables))] for
    the optimizer of [net]. *)
Definition optimizer_apply_gradients (net : network) (grads : gradients)
           (s : session) : session :=
  match net with
  | Generator =>
      let update :=
        apply_gradients (generator_optimizer (names s)) grads
                        (generator (names s)) in
      emit [ApplyGradients Generator grads]
           (set_names (with_generator (snd update)
                         (with_generator_optimizer (fst update) (names s))) s)
  | Discriminator =>
      let update :=
        apply_gradients (discriminator_optimizer (names s)) grads
                        (discriminator (names s)) in
      emit [ApplyGradients Discriminator grads]
           (set_names (with_discriminator (snd update)
                         (with_discriminator_optimizer (fst update) (names s)))
                      s)
  end.

(** The filling the exercise text gives for the missing line: "generated
    images is created using the generator function with noise as
    input". *)
Definition generator_of_noise (noise images : tensor) (s : session)
  : tensor * session :=
  call Generator noise s.

(** *** [train_step] *)

(** The line the lab leaves out, [generated_images = ...]: what the
    learner writes there gets the noise and the images and runs in the
    session. *)
Variable generated_images_blank : tensor -> tensor -> session -> tensor * session.

(** The block under the two tapes: the two losses and the session after
    it. *)
Definition taped (noise images : tensor) (s : session)
  : (tensor * tensor) * session :=
  let generated_images := generated_images_blank noise images s in
  let real_output := call Discriminator images (snd generated_images) in
  let fake_output :=
    call Discriminator (fst generated_images) (snd real_output) in
  let gen_loss := generator_loss (fst fake_output) in
  let disc_loss := discriminator_loss (fst real_output) (fst fake_output) in
  ((gen_loss, disc_loss), snd fake_output).

(** [train_step(images)].  Each tape gives the gradient of its loss as
    the block computes it from the variables of its network: the block
    run from where it started with those variables replaced. *)
Definition train_step (images : tensor) (s : session) : session :=
  let noise := tf_random_normal s in
  let block := taped (fst noise) images (snd noise) in
  let gen_loss := fst (fst block) in
  let disc_loss := snd (fst block) in
  let gradients_of_generator :=
    tape_gradient gen_loss
      (fun g =>
         fst (fst (taped (fst noise) images
                         (set_names (with_generator g (names (snd noise)))
                                    (snd noise)))))
      (generator (names (snd noise))) in
  let gradients_of_discriminator :=
    tape_gradient disc_loss
      (fun d =>
         snd (fst (taped (fst noise) images
                         (set_names (with_discriminator d (names (snd noise)))
                                    (snd noise)))))
      (discriminator (names (snd noise))) in
  optimizer_apply_gradients Discriminator gradients_of_discriminator
    (optimizer_apply_gradients Generator gradients_of_generator (snd block)).

(** *** [generate_and_save_images], [train] and [display_image] *)

(** [plt.savefig(path)] for a path in ./gan_images: the file is opened
    for writing, which fails when ./gan_images is missing or is a file,
    and when the path is a directory. *)
Definition savefig (path : string) (figure : tensor) (s : session)
  : session * option failure :=
  match disk s !! images_dir with
  | Some Folder =>
      match disk s !! path with
      | Some Folder => (s, Some IsADirectoryError)
      | _ => (set_disk (<[path := Figure figure]> (disk s)) s, None)
      end
  | Some (Figure _) => (s, Some OSError)
  | None => (s, Some FileNotFoundError)
  end.

(** [generate_and_save_images(model, epoch, test_input)].  The loop
    places one image per example on a 4 by 4 grid; [plt.subplot] raises
    ValueError for a seventeenth. *)
Definition generate_and_save_images (model : variables) (epoch : nat)
           (test_input : tensor) (s : session) : session * option failure :=
  let predictions := generator_predict model test_input in
  if (16 <? examples predictions)%nat then (s, Some (Builtin ValueError))
  else savefig (image_path epoch) predictions s.

(** [checkpoint.save(file_prefix=...)] for a prefix in
    [checkpoint_dir]: TensorFlow makes the directory when it is missing
    and fails when a file is in its place.  The save is recorded with the
    values of the four objects the checkpoint tracks. *)
Definition checkpoint_save (file_prefix : string) (s : session)
  : session * option failure :=
  match disk s !! checkpoint_dir with
  | Some (Figure _) => (s, Some OpError)
  | _ =>
      (emit [CheckpointSave file_prefix (generator (names s))
               (discriminator (names s)) (generator_optimizer (names s))
               (discriminator_optimizer (names s))]
            (set_disk (<[checkpoint_dir := Folder]> (disk s)) s),
       None)
  end.

(** [for image_batch in dataset: train_step(image_batch)] *)
Definition train_batches (dataset : list tensor) (s : session) : session :=
  fold_left (fun s image_batch => train_step image_batch s) dataset s.

(** [for epoch in epochs: ...], the loop of [train]: the session when it
    ends and the exception that ended it, if any.  The timing and the
    printed line of each epoch are left out. *)
Fixpoint train_epochs (dataset : list tensor) (seed : tensor)
         (epochs : list nat) (s : session) : session * option failure :=
  match epochs with
  | [] => (s, None)
  | epoch :: epochs' =>
      let s := train_batches dataset s in
      let s := emit [ClearOutput] s in
      match generate_and_save_images (generator (names s)) (epoch + 1) seed s
      with
      | (s, Some e) => (s, Some e)
      | (s, None) =>
          if Nat.eqb ((epoch + 1) mod 15) 0 then
            match checkpoint_save checkpoint_prefix s with
            | (s, Some e) => (s, Some e)
            | (s, None) => train_epochs dataset seed epochs' s
            end
          else train_epochs dataset seed epochs' s
      end
  end.

(** [train(dataset, epochs)]; [seed] is the global of that name. *)
Definition train (dataset : list tensor) (seed : tensor) (epochs : nat)
           (s : session) : session * option failure :=
  match train_epochs dataset seed (seq 0 epochs) s with
  | (s, Some e) => (s, Some e)
  | (s, None) =>
      let s := emit [ClearOutput] s in
      generate_and_save_images (generator (names s)) epochs seed s
  end.

(** [display_image(epoch_no)]: the figure [PIL.Image.open] reads. *)
Definition display_image (d : gmap string entry) (epoch_no : nat)
  : outcome tensor :=
  match d !! image_path epoch_no with
  | Some (Figure predictions) => Returned predictions
  | Some Folder => Failed IsADirectoryError
  | None => Failed FileNotFoundError
  end.

(** *** The values of one step, by name *)

(** For a step that starts with the globals [m]: the noise batch it
    draws, the images the generator makes of it and the generator's
    variables after that pass, the two outputs of the discriminator and
    its variables after the two passes. *)
Definition noise_of (m : globals) : tensor :=
  fst (random_normal (random_state m)).

Definition generated_of (m : globals) : tensor :=
  fst (generator_train (generator m) (noise_of m)).

Definition generator_after_pass (m : globals) : variables :=
  snd (generator_train (generator m) (noise_of m)).

Definition real_output_of (images : tensor) (m : globals) : tensor :=
  fst (discriminator_train (discriminator m) images).

Definition fake_output_of (images : tensor) (m : globals) : tensor :=
  fst (discriminator_train
         (snd (discriminator_train (discriminator m) images))
         (generated_of m)).

Definition discriminator_after_passes (images : tensor) (m : globals)
  : variables :=
  snd (discriminator_train
         (snd (discriminator_train (discriminator m) images))
         (generated_of m)).

(** The gradients the two tapes give: of each loss, as a function of the
    variables of its network, at the variables the step started with. *)
Definition generator_gradients (images : tensor) (m : globals) : gradients :=
  tape_gradient
    (generator_loss (fake_output_of images m))
    (fun g => generator_loss (fake_output_of images (with_generator g m)))
    (generator m).

Definition discriminator_gradients (images : tensor) (m : globals)
  : gradients :=
  tape_gradient
    (discriminator_loss (real_output_of images m) (fake_output_of images m))
    (fun d =>
       discriminator_loss (real_output_of images (with_discriminator d m))
                          (fake_output_of images (with_discriminator d m)))
    (discriminator m).

(** *** Reading the log *)

(** The calls of the training steps: draws, passes and updates. *)
Definition training_events (l : list event) : list event :=
  omap (fun ev =>
          match ev with
          | RandomNormal _ | Call _ _ | ApplyGradients _ _ => Some ev
          | _ => None
          end) l.

(** The checkpoints saved, each with the values it holds. *)
Definition checkpoints_saved (l : list event)
  : list (string * (variables * variables * adam * adam)) :=
  omap (fun ev =>
          match ev with
          | CheckpointSave file_prefix g d og od =>
              Some (file_prefix, (g, d, og, od))
          | _ => None
          end) l.

(** What a checkpoint of the globals [m] holds. *)
Definition tracked (m : globals) : variables * variables * adam * adam :=
  (generator m, discriminator m, generator_optimizer m,
   discriminator_optimizer m).

(** "[train] invokes [train_step] once per batch of the dataset in each
    of the epochs": the globals it leaves and the calls it has made are
    those of the steps on the batches of the dataset, taken [epochs]
    times over, and nothing ended it early. *)
Definition one_step_per_batch (dataset : list tensor) (seed : tensor)
           (epochs : nat) (s : session) : Prop :=
  let steps := train_batches (concat (replicate epochs dataset)) s in
  snd (train dataset seed epochs s) = None
  /\ names (fst (train dataset seed epochs s)) = names steps
  /\ training_events (log (fst (train dataset seed epochs s)))
     = training_events (log steps).

End Training.

Arguments Folder {tensor}.
Arguments Figure {tensor}.
Arguments RandomNormal {tensor variables gradients adam}.
Arguments Call {tensor variables gradients adam}.
Arguments ApplyGradients {tensor variables gradients adam}.
Arguments ClearOutput {tensor variables gradients adam}.
Arguments CheckpointSave {tensor variables gradients adam}.
Arguments Globals {variables adam rng}.
Arguments generator {variables adam rng}.
Arguments discriminator {variables adam rng}.
Arguments generator_optimizer {variables adam rng}.
Arguments discriminator_optimizer {variables adam rng}.
Arguments random_state {variables adam rng}.
Arguments with_generator {variables adam rng}.
Arguments with_discriminator {variables adam rng}.
Arguments with_generator_optimizer {variables adam rng}.
Arguments with_discriminator_optimizer {variables adam rng}.
Arguments with_random_state {variables adam rng}.
Arguments Session {tensor variables gradients adam rng}.
Arguments names {tensor variables gradients adam rng}.
Arguments log {tensor variables gradients adam rng}.
Arguments disk {tensor variables gradients adam rng}.
Arguments set_names {tensor variables gradients adam rng}.
Arguments emit {tensor variables gradients adam rng}.
Arguments set_disk {tensor variables gradients adam rng}.
Arguments savefig {tensor variables gradients adam rng}.
Arguments checkpoint_save {tensor variables gradients adam rng}.
Arguments display_image {tensor}.
Arguments training_events {tensor variables gradients adam}.
Arguments checkpoints_saved {tensor variables gradients adam}.
Arguments tracked {variables adam rng}.
Arguments tf_random_normal {tensor variables gradients adam rng}.
Arguments call {tensor variables gradients adam rng}.
Arguments optimizer_apply_gradients {tensor variables gradients adam rng}.
Arguments generator_of_noise {tensor variables gradients adam rng}.
Arguments taped {tensor variables gradients adam rng}.
Arguments train_step {tensor variables gradients adam rng}.
Arguments generate_and_save_images {tensor variables gradients adam rng}.
Arguments train_batches {tensor variables gradients adam rng}.
Arguments train_epochs {tensor variables gradients adam rng}.
Arguments train {tensor variables gradients adam rng}.
Arguments noise_of {tensor variables adam rng}.
Arguments generated_of {tensor variables adam rng}.
Arguments generator_after_pass {tensor variables adam rng}.
Arguments real_output_of {tensor variables adam rng}.
Arguments fake_output_of {tensor variables adam rng}.
Arguments discriminator_after_passes {tensor variables adam rng}.
Arguments generator_gradients {tensor variables gradients adam rng}.
Arguments discriminator_gradients {tensor variables gradients adam rng}.
Arguments one_step_per_batch {tensor variables gradients adam rng}.

End DCGAN.

(** ** The time-series lab: the cells that use the helpers *)

Module Cells.
Import TimeSeries.

(** *** The plot of a few examples *)

(** [s.iloc[ix]] for a position that is not negative. *)
Definition iloc (s : Series) (ix : nat) : result cell :=
  match s !! ix with
  | Some c => Ok c
  | None => Raise IndexError
  end.

(** [df[names]] for a list of column names. *)
Definition getitems (df : DataFrame) (names : list string) : result DataFrame :=
  mapM (fun name => s ← getitem df name; Ok (name, s)) names.

(** [df.iloc[ix]]: the values of one row, by column name. *)
Definition row_iloc (df : DataFrame) (ix : nat) : result (list (string * cell)) :=
  mapM (fun col => c ← iloc (snd col) ix; Ok (fst col, c)) df.

(** A line of the plot: its legend label and the values it draws. *)
Record line : Type := Line { line_label : cell; line_data : list (string * cell) }.

Definition ix_to_plot : list nat := [0; 1; 9; 5]%nat.

(** [label] and [example] of one pass of the loop. *)
Definition example_line (df_features : DataFrame) (ix : nat) : result line :=
  label ← (s ← getitem df_features "direction_numeric"; iloc s ix);
  example ← (sel ← getitems df_features COL_NAMES; row_iloc sel ix);
  Ok (Line label example).

(** [for ix in ixs: ...]: the lines on the axes when the loop ends and the
    exception that ended it, if any.  Axis labels and legend are left
    out. *)
Fixpoint plot_rows (df_features : DataFrame) (ixs : list nat) (ax : list line)
  : list line * option exn :=
  match ixs with
  | [] => (ax, None)
  | ix :: ixs' =>
      match example_line df_features ix with
      | Ok ln => plot_rows df_features ixs' (ax ++ [ln])%list
      | Raise e => (ax, Some e)
      end
  end.

Definition plot_cell (df_features : DataFrame) : list line * option exn :=
  plot_rows df_features ix_to_plot [].

(** [ln] is the line of row [ix] of the day columns [sel] and the labels
    [label]: it carries the label of the row and the row's value in each
    column, by column name. *)
Definition line_of_row (sel : DataFrame) (label : Series) (ix : nat) (ln : line)
  : Prop :=
  label !! ix = Some (line_label ln)
  /\ Forall2 (fun col v => fst v = fst col /\ snd col !! ix = Some (snd v))
             sel (line_data ln).

(** *** Checks on formatted numbers *)

(** [zfill 4 n] is four digits that read back as [n]. *)
Definition reads_back4 (n : nat) : bool :=
  match list_ascii_of_string (zfill 4 n) with
  | [a; b; c; d] =>
      match digit a, digit b, digit c, digit d with
      | Some x3, Some x2, Some x1, Some x0 =>
          1000 * x3 + 100 * x2 + 10 * x1 + x0 =? Z.of_nat n
      | _, _, _, _ => false
      end
  | _ => false
  end.

(** [zfill 2 n] is two digits that read back as [n]. *)
Definition reads_back2 (n : nat) : bool :=
  match list_ascii_of_string (zfill 2 n) with
  | [a; b] =>
      match digit a, digit b with
      | Some x1, Some x0 => 10 * x1 + x0 =? Z.of_nat n
      | _, _ => false
      end
  | _ => false
  end.

(** A row of the history column that expands to 260 floats. *)
Definition full_history (c : cell) : Prop :=
  exists l, c = CList l /\ length l = 260%nat.

End Cells.

(** ** The DCGAN lab: the animation cell *)

Module DCGANFiles.
Import Os.

(** *** The animation *)

Section Gif.

Variable image : Type.
(** [imageio.imread(filename)] *)
Variable imread : string -> image.
(** [round(2 * (i ** 0.5))] *)
Variable rounded_frame : nat -> Z.

(** The variables of the cell: [last] as the index whose frame it holds
    ([None] for the initial -1), [filename] once the loop has bound it, and
    the frames given to the writer. *)
Record gif_state : Type := GifState {
  last : option nat;
  filename : option string;
  frames : list image
}.

(** [round(last)] *)
Definition rounded_last (last : option nat) : Z :=
  match last with
  | None => -1
  | Some i => rounded_frame i
  end.

(** [for i, filename in enumerate(filenames): ...], from index [i] on. *)
Fixpoint gif_loop (i : nat) (filenames : list string) (st : gif_state)
  : gif_state :=
  match filenames with
  | [] => st
  | f :: filenames' =>
      if rounded_last (last st) <? rounded_frame i then
        gif_loop (S i) filenames'
                 (GifState (Some i) (Some f) (frames st ++ [imread f])%list)
      else
        gif_loop (S i) filenames' (GifState (last st) (Some f) (frames st))
  end.

(** The body of the [with] block for the sorted list of files: the frames
    given to the writer.  After the loop the file named by [filename] is
    read once more; the name is unbound when the loop ran zero times. *)
Definition make_gif (filenames : list string) : outcome (list image) :=
  let st := gif_loop 0 filenames (GifState None None []) in
  match filename st with
  | Some f => Returned (frames st ++ [imread f])%list
  | None => Failed NameError
  end.

End Gif.

End DCGANFiles.

(** ** Concrete frames, kernels and sessions *)

Module Examples.
Import TimeSeries.

(** A conversion that accepts dates and YYYY-MM-DD strings. *)
Definition to_datetime_iso (c : cell) : option date :=
  match c with
  | CDate d => Some d
  | CStr s => parse_date s
  | _ => None
  end.

(** Placeholder kernels: enough to run the code, not IEEE arithmetic. *)
Definition mean0 (xs : list float64) : float64 := Finite 0 0.
Definition std0 (xs : list float64) : float64 := Finite 1 0.
Definition fsub0 (x y : float64) : float64 := x.
Definition fdiv0 (x y : float64) : float64 := x.
Definition of_int0 (n : Z) : float64 := Finite n 0.

Definition history : cell := CList (repeat (Finite 3 0) 260).

(** One row as BigQuery returns it. *)
Definition raw_row : DataFrame :=
  [("symbol", [CStr "GOOG"]); ("Date", [CDate (Date 2010 1 4)]);
   ("direction", [CStr "UP"]); ("close_values_prior_260", [history])].

(** A row with a NULL symbol and an infinite close value. *)
Definition raw_with_missing : DataFrame :=
  [("symbol", [CNA]); ("Date", [CDate (Date 2010 1 4)]);
   ("direction", [CStr "UP"]);
   ("close_values_prior_260", [CList [Finite 3 0; PosInf]])].

Definition cleaned_with_missing : DataFrame :=
  [("symbol", [CNA]); ("Date", [CStr "2010-01-04"]);
   ("direction", [CStr "UP"]);
   ("close_values_prior_260", [CList [Finite 3 0; PosInf]]);
   ("direction_numeric", [CInt 2])].

(** [raw_row] after [clean_data]. *)
Definition cleaned_row : DataFrame :=
  [("symbol", [CStr "GOOG"]); ("Date", [CStr "2010-01-04"]);
   ("direction", [CStr "UP"]); ("close_values_prior_260", [history]);
   ("direction_numeric", [CInt 2])].

(** A frame whose second label is none of the three. *)
Definition bad_direction : DataFrame :=
  [("Date", [CDate (Date 2010 1 4); CDate (Date 2010 1 5)]);
   ("direction", [CStr "UP"; CStr "SIDEWAYS"])].

(** A frame without a Date column. *)
Definition no_date : DataFrame := [("direction", [CStr "UP"])].

(** A cleaned frame with no row. *)
Definition no_rows : DataFrame :=
  [("symbol", []); ("Date", []); ("direction", []);
   ("close_values_prior_260", []); ("direction_numeric", [])].

(** A query service that returns [raw_row] for every query. *)
Definition one_row_service (q : string) : DataFrame := raw_row.

(** The frame the export cell writes for that service, in every phase. *)
Definition prepared_row : DataFrame :=
  Eval vm_compute in
    match prepare to_datetime_iso mean0 std0 fsub0 fdiv0 of_int0
                  one_row_service "TRAIN" with
    | Ok df => df
    | Raise _ => []
    end.

(** A toy training setup over integers. *)
Definition random_normal0 (r : Z) : Z * Z := (r, r + 1).
Definition generator_train0 (v x : Z) : Z * Z := (v + x, v + 1).
Definition discriminator_train0 (v x : Z) : Z * Z := (v * x, v).
Definition generator_predict0 (v x : Z) : Z := v + x.
Definition generator_loss0 (fake : Z) : Z := 1 - fake.
Definition discriminator_loss0 (real fake : Z) : Z := (1 - real) + fake.
Definition tape_gradient0 (target : Z) (loss : Z -> Z) (v : Z) : Z :=
  loss (v + 1) - target.
Definition apply_gradients0 (o g v : Z) : Z * Z := (o + 1, v - g).
Definition examples0 (predictions : Z) : nat := 16.

Definition globals0 : DCGAN.globals Z Z Z := DCGAN.Globals 1 1 0 0 0.

(** A session on a disk without ./gan_images, as the notebook starts, and
    one where the directory has been made by hand. *)
Definition session0 : DCGAN.session Z Z Z Z Z :=
  DCGAN.Session globals0 [] ∅.

Definition session_with_folder : DCGAN.session Z Z Z Z Z :=
  DCGAN.Session globals0 [] {[ DCGAN.images_dir := DCGAN.Folder ]}.

End Examples.

(** ** More concrete inputs *)

Module MoreExamples.
Import TimeSeries.

(** A service that has rows for the TRAIN range only: for the other ranges
    it returns a frame without a Date column. *)
Definition train_only_service (q : string) : DataFrame :=
  if contains "2002-11-01" q then Examples.raw_row else Examples.no_date.

(** Twelve rows of features: two day columns are enough to show a line. *)
Definition twelve_labels : Series := map (fun i => CInt (Z.of_nat i)) (seq 0 12).

(** The day columns of twelve rows, and the frame of features they make
    with the labels. *)
Definition twelve_days : DataFrame :=
  zip COL_NAMES (repeat (repeat (CFloat (Finite 1 0)) 12) 260).

Definition twelve_rows : DataFrame :=
  (twelve_days ++ [(LABEL, twelve_labels)])%list.

(** Three figures on disk, as [sorted] lists them. *)
Definition three_figures : list string :=
  map DCGAN.image_path [1; 2; 3]%nat.

End MoreExamples.

(** * Theorems *)

Import TimeSeries.

(** ** Split clauses and queries *)

Lemma format_split_template (floor ceiling : string) :
  format split_template [floor; ceiling] = Ok (where_clause floor ceiling).
Proof. reflexivity. Qed.

Lemma split_bounds_cases (phase : string) :
  split_bounds phase =
    if decide (phase = "VALID") then ("2010-07-01", "2011-09-01")
    else if decide (phase = "TEST") then ("2011-09-01", "2012-11-30")
    else ("2002-11-01", "2010-07-01").
Proof.
  unfold split_bounds.
  destruct (String.eqb_spec phase "VALID") as [-> | Hv]; [reflexivity |].
  rewrite decide_False by assumption.
  destruct (String.eqb_spec phase "TEST") as [-> | Ht]; [reflexivity |].
  rewrite decide_False by assumption. reflexivity.
Qed.

Lemma create_split_clause (phase : string) :
  _create_split phase = Ok (split_clause phase).
Proof.
  unfold _create_split, split_clause. rewrite split_bounds_cases.
  repeat case_decide; apply format_split_template.
Qed.

Lemma date_ltb_lt (a b : date) :
  date_ltb a b = true <->
  year a < year b \/
  (year a = year b /\ (month a < month b \/ (month a = month b /\ day a < day b))).
Proof.
  unfold date_ltb.
  rewrite !orb_true_iff, !andb_true_iff, !orb_true_iff, !andb_true_iff.
  rewrite !Z.ltb_lt, !Z.eqb_eq. tauto.
Qed.

Lemma date_leb_le (a b : date) :
  date_leb a b = true <->
  year a < year b \/
  (year a = year b /\ (month a < month b \/ (month a = month b /\ day a <= day b))).
Proof.
  unfold date_leb. rewrite negb_true_iff, <- not_true_iff_false, date_ltb_lt.
  lia.
Qed.

Ltac dates_to_Z :=
  repeat match goal with
    | H : date_leb _ _ = true |- _ => apply date_leb_le in H
    | H : date_ltb _ _ = true |- _ => apply date_ltb_lt in H
    | H : date_leb _ _ = false |- _ =>
        apply not_true_iff_false in H; rewrite date_leb_le in H
    | H : date_ltb _ _ = false |- _ =>
        apply not_true_iff_false in H; rewrite date_ltb_lt in H
    end; simpl in *.

Ltac case_dates :=
  repeat match goal with
    | |- context [date_leb ?a ?b] =>
        let E := fresh "E" in destruct (date_leb a b) eqn:E
    | |- context [date_ltb ?a ?b] =>
        let E := fresh "E" in destruct (date_ltb a b) eqn:E
    end.

Lemma in_split_TRAIN (d : date) :
  in_split "TRAIN" d = date_leb (Date 2002 11 1) d && date_ltb d (Date 2010 7 1).
Proof. reflexivity. Qed.

Lemma in_split_VALID (d : date) :
  in_split "VALID" d = date_leb (Date 2010 7 1) d && date_ltb d (Date 2011 9 1).
Proof. reflexivity. Qed.

Lemma in_split_TEST (d : date) :
  in_split "TEST" d = date_leb (Date 2011 9 1) d && date_ltb d (Date 2012 11 30).
Proof. reflexivity. Qed.

Lemma in_range_all (d : date) :
  in_range "2002-11-01" "2012-11-30" d
  = date_leb (Date 2002 11 1) d && date_ltb d (Date 2012 11 30).
Proof. reflexivity. Qed.

(** C5: [_create_split] returns for every phase string; VALID and TEST get
    their own WHERE clause and every other string, TRAIN included, the
    clause for 2002-11-01 <= Date < 2010-07-01.  No date lies in two of the
    three ranges, and together they cover exactly
    2002-11-01 <= Date < 2012-11-30, without a gap. *)
Theorem create_split_total_default (phase : string) (d : date) :
  _create_split phase =
    Ok (if decide (phase = "VALID")
        then text [""; "    WHERE Date >= '2010-07-01'";
                   "    AND Date < '2011-09-01'"; "    "]
        else if decide (phase = "TEST")
        then text [""; "    WHERE Date >= '2011-09-01'";
                   "    AND Date < '2012-11-30'"; "    "]
        else text [""; "    WHERE Date >= '2002-11-01'";
                   "    AND Date < '2010-07-01'"; "    "])
  /\ in_split phase d =
       (if decide (phase = "VALID") then in_range "2010-07-01" "2011-09-01" d
        else if decide (phase = "TEST") then in_range "2011-09-01" "2012-11-30" d
        else in_range "2002-11-01" "2010-07-01" d)
  /\ in_split "TRAIN" d && in_split "VALID" d = false
  /\ in_split "VALID" d && in_split "TEST" d = false
  /\ in_split "TRAIN" d && in_split "TEST" d = false
  /\ in_split "TRAIN" d || in_split "VALID" d || in_split "TEST" d
     = in_range "2002-11-01" "2012-11-30" d
  /\ snd (split_bounds "TRAIN") = fst (split_bounds "VALID")
  /\ snd (split_bounds "VALID") = fst (split_bounds "TEST").
Proof.
  split; [| split].
  - rewrite create_split_clause. unfold split_clause.
    repeat case_decide; reflexivity.
  - unfold in_split. rewrite split_bounds_cases. repeat case_decide; reflexivity.
  - rewrite in_split_TRAIN, in_split_VALID, in_split_TEST, in_range_all.
    repeat split; case_dates; try reflexivity; exfalso; dates_to_Z; lia.
Qed.

(** C3: for every phase string [create_query] returns the fixed base query
    followed by the phase's WHERE clause, and that text is a single
    #standardSQL SELECT over `stock_market.eps_percent_change_sp500` with no
    data-modification or DDL keyword; so is the inline [bq_query]. *)
Theorem queries_read_only (phase : string) :
  exists q : string,
    create_query phase = Ok q
    /\ q = basequery +:+ split_clause phase
    /\ read_only_select "stock_market" "eps_percent_change_sp500" q = true
    /\ read_only_select "stock_market" "eps_percent_change_sp500" bq_query = true.
Proof.
  exists (basequery +:+ split_clause phase).
  unfold create_query. rewrite create_split_clause.
  repeat split. unfold split_clause.
  repeat case_decide; vm_compute; reflexivity.
Qed.

(** ** Frames: columns and [clean_data] *)

Lemma getitem_setitem_eq (df : DataFrame) (name : string) (s : Series) :
  getitem (setitem df name s) name = Ok s.
Proof.
  induction df as [| [n s0] df IH]; simpl.
  - rewrite String.eqb_refl. reflexivity.
  - destruct (String.eqb n name) eqn:E; simpl; rewrite E; [reflexivity | exact IH].
Qed.

Lemma getitem_setitem_ne (df : DataFrame) (name other : string) (s : Series) :
  name <> other -> getitem (setitem df name s) other = getitem df other.
Proof.
  intros Hne. induction df as [| [n s0] df IH]; simpl.
  - apply String.eqb_neq in Hne. rewrite Hne. reflexivity.
  - destruct (String.eqb n name) eqn:E; simpl.
    + apply String.eqb_eq in E. subst n.
      apply String.eqb_neq in Hne. rewrite Hne. reflexivity.
    + destruct (String.eqb n other); [reflexivity | exact IH].
Qed.

Lemma getitem_raises_KeyError (df : DataFrame) (name : string) (e : exn) :
  getitem df name = Raise e -> e = KeyError.
Proof.
  induction df as [| [n s0] df IH]; simpl.
  - congruence.
  - destruct (String.eqb n name); [discriminate | exact IH].
Qed.

Lemma direction_codes_lookup (s : string) :
  direction_codes !! s =
    if decide (s = "DOWN") then Some 0
    else if decide (s = "STAY") then Some 1
    else if decide (s = "UP") then Some 2
    else None.
Proof.
  unfold direction_codes.
  repeat case_decide; subst; simplify_map_eq; reflexivity.
Qed.

Lemma direction_code_valid (c : cell) :
  valid_direction c -> exists n, direction_code c = Ok (CInt n).
Proof.
  intros [-> | [-> | ->]]; eexists; reflexivity.
Qed.

Lemma direction_code_invalid (c : cell) :
  hashable c -> ~ valid_direction c -> direction_code c = Raise KeyError.
Proof.
  unfold valid_direction. intros Hh Hv.
  destruct c as [| s | | | |]; try reflexivity; [| destruct Hh].
  simpl. rewrite direction_codes_lookup.
  repeat case_decide; subst; try reflexivity; exfalso; apply Hv; auto.
Qed.

Lemma direction_code_raises (c : cell) (e : exn) :
  direction_code c = Raise e -> e = KeyError \/ e = TypeError.
Proof.
  destruct c as [| s | | | |]; simpl; try (intros [= <-]; auto).
  destruct (direction_codes !! s); intros [= <-]; auto.
Qed.

(** [Series.apply] stops at the first value the function rejects. *)
Lemma apply_direction_code_KeyError (direction : Series) :
  Forall hashable direction ->
  mapM direction_code direction = Raise KeyError <->
  Exists (fun c => ~ valid_direction c) direction.
Proof.
  induction 1 as [| c l Hc Hl IH]; simpl.
  - split; [discriminate | intros H; inversion H].
  - rewrite Exists_cons.
    destruct (direction_code c) as [y | e] eqn:Ec; simpl.
    + assert (Hv : valid_direction c).
      { destruct c as [| s | | | |]; simpl in Ec; try discriminate.
        rewrite direction_codes_lookup in Ec. unfold valid_direction.
        repeat case_decide; subst; auto; discriminate. }
      destruct (mapM direction_code l) as [ys | e'] eqn:El; simpl.
      * split; [discriminate |].
        intros [Hn | Hex]; [contradiction | apply IH in Hex; discriminate].
      * split.
        -- intros [= ->]. right. apply IH. reflexivity.
        -- intros [Hn | Hex]; [contradiction |].
           apply IH in Hex. congruence.
    + assert (Hn : ~ valid_direction c).
      { intros Hv. apply direction_code_valid in Hv as [n Hn]. congruence. }
      rewrite (direction_code_invalid c Hc Hn) in Ec. injection Ec as <-.
      split; auto.
Qed.

Lemma apply_direction_code_raises (direction : Series) (e : exn) :
  mapM direction_code direction = Raise e -> e = KeyError \/ e = TypeError.
Proof.
  induction direction as [| c l IH]; simpl; [discriminate |].
  destruct (direction_code c) as [y | e0] eqn:Ec; simpl.
  - destruct (mapM direction_code l) as [ys | e1]; simpl; [discriminate |].
    intros [= <-]. apply IH. reflexivity.
  - intros [= <-]. eapply direction_code_raises, Ec.
Qed.

Lemma apply_direction_code_hashable (direction : Series) (e : exn) :
  Forall hashable direction ->
  mapM direction_code direction = Raise e -> e = KeyError.
Proof.
  induction 1 as [| c l Hc Hl IH]; simpl; [discriminate |].
  destruct (direction_code c) as [y | e0] eqn:Ec; simpl.
  - destruct (mapM direction_code l); simpl; [discriminate |].
    intros [= <-]. apply IH. reflexivity.
  - intros [= <-].
    destruct c as [| s | | | |]; simpl in Ec; try congruence; [| destruct Hc].
    destruct (direction_codes !! s); congruence.
Qed.

Section CleanDataFacts.

Variable to_datetime : cell -> option date.

(** Once the Date column is found, the only steps that can raise are the
    lookup of the direction column and the label lambda. *)
Lemma clean_data_with_date (df : DataFrame) (date : Series) :
  getitem df "Date" = Ok date ->
  clean_data to_datetime df =
    (direction ← getitem df "direction";
     direction_numeric ← mapM direction_code direction;
     Ok (setitem
           (setitem df "Date"
              (map dt_strftime (map (to_datetime_coerce to_datetime) date)))
           "direction_numeric" direction_numeric)).
Proof.
  intros Hd. unfold clean_data. rewrite Hd. simpl.
  rewrite getitem_setitem_eq. simpl.
  rewrite !getitem_setitem_ne by discriminate.
  destruct (getitem df "direction") as [direction | e]; simpl; [| reflexivity].
  destruct (mapM direction_code direction); simpl; [| reflexivity].
  f_equal. f_equal.
  induction df as [| [n s0] df IH]; simpl in *; [discriminate |].
  destruct (String.eqb n "Date") eqn:E; simpl; rewrite E; [reflexivity |].
  f_equal. apply IH. exact Hd.
Qed.

End CleanDataFacts.

(** The columns [clean_data] does not assign are returned as they came,
    missing and infinite values included. *)
Lemma clean_data_other_columns
      (to_datetime : cell -> option date) (df df' : DataFrame) (other : string) :
  clean_data to_datetime df = Ok df' ->
  other <> "Date" -> other <> "direction_numeric" ->
  getitem df' other = getitem df other.
Proof.
  intros Hc Hd Hn.
  destruct (getitem df "Date") as [date | e] eqn:Hdate.
  - rewrite (clean_data_with_date to_datetime df date Hdate) in Hc.
    destruct (getitem df "direction") as [direction | e]; simpl in Hc;
      [| discriminate].
    destruct (mapM direction_code direction); simpl in Hc; [| discriminate].
    injection Hc as <-.
    rewrite !getitem_setitem_ne by congruence. reflexivity.
  - unfold clean_data in Hc. rewrite Hdate in Hc. discriminate.
Qed.

(** C1: the documentation of [clean_data] promises that inf and NA values
    are removed first.  On a row with a NULL symbol and an infinite close
    value the function returns the row with both still in it; only the Date
    and the numeric label are as documented. *)
Theorem clean_data_keeps_inf_and_na :
  has_inf_or_na Examples.raw_with_missing = true
  /\ clean_data Examples.to_datetime_iso Examples.raw_with_missing
     = Ok Examples.cleaned_with_missing
  /\ has_inf_or_na Examples.cleaned_with_missing = true
  /\ getitem Examples.cleaned_with_missing "symbol" = Ok [CNA]
  /\ getitem Examples.cleaned_with_missing "close_values_prior_260"
     = Ok [CList [Finite 3 0; PosInf]].
Proof. repeat split; vm_compute; reflexivity. Qed.


(** ** [create_features] on a frame without rows *)

(** C9: [create_features] does not depend on [label_name].  Its comment
    says the history column is expanded to 260 columns, and the code
    assigns the 260 names day_0 to day_259; on a frame with no row it
    returns instead the two columns close_values_prior_260 and
    direction_numeric, whatever the float kernels. *)
Theorem create_features_empty_frame
        (mean std : list float64 -> float64)
        (fsub fdiv : float64 -> float64 -> float64) (of_int : Z -> float64)
        (df : DataFrame) (label_name1 label_name2 : string) :
  create_features mean std fsub fdiv of_int df label_name1
  = create_features mean std fsub fdiv of_int df label_name2
  /\ length COL_NAMES = 260%nat
  /\ create_features mean std fsub fdiv of_int Examples.no_rows label_name1
     = Ok [(STOCK_HISTORY_COLUMN, []); (LABEL, [])]
  /\ column_names [(STOCK_HISTORY_COLUMN, []); (LABEL, [])]
     = ["close_values_prior_260"; "direction_numeric"]
  /\ column_names [(STOCK_HISTORY_COLUMN, []); (LABEL, [])]
     <> (COL_NAMES ++ [LABEL])%list.
Proof.
  split; [reflexivity |]. split; [reflexivity |]. split; [reflexivity |].
  split; [reflexivity | discriminate].
Qed.

(** ** Purity of the query builders *)

Import Os.

(** [create_query] in a session where the name [_create_split] is bound
    to the function the notebook defines. *)
Lemma create_query_in_defined (w : namespace) (phase : string) :
  w !! "_create_split" = Some (GFunction _create_split) ->
  create_query_in w phase = Returned (basequery +:+ split_clause phase).
Proof.
  intros Hw. unfold create_query_in, call_global. rewrite Hw.
  rewrite create_split_clause. reflexivity.
Qed.

(** C10, as stated, fails on [_create_split]: whatever the session holds,
    its result is fixed by its argument and the session is left as it
    was. *)
Lemma create_split_is_pure :
  ~ no_testable_contract [_create_split_fn; create_query_fn].
Proof.
  unfold no_testable_contract. intros H.
  apply Forall_cons in H as [H _]. apply H.
  exists (fun phase => Returned (split_clause phase)). intros w phase.
  simpl. rewrite create_split_clause. reflexivity.
Qed.

(** C10, amended: the notebooks do define a deterministic pure function.
    [_create_split] gives in every session the WHERE clause fixed by its
    argument and leaves the session as it was.  [create_query] is not pure
    in that sense: it looks the name [_create_split] up in the globals of
    the session when it is called, so it raises NameError in a session
    that does not bind the name; in a session that binds it to the
    function the notebook defines, its result is the base query followed
    by the clause of the phase, and the session is left as it was. *)
Theorem query_builders_deterministic (w : namespace) (phase : string) :
  (deterministic_pure _create_split_fn
   /\ fn_run _create_split_fn w phase = (Returned (split_clause phase), w))
  /\ ~ deterministic_pure create_query_fn
  /\ (w !! "_create_split" = None ->
      fn_run create_query_fn w phase = (Failed NameError, w))
  /\ (w !! "_create_split" = Some (GFunction _create_split) ->
      fn_run create_query_fn w phase
      = (Returned (basequery +:+ split_clause phase), w)).
Proof.
  split; [split |]; [| | split; [| split]].
  - exists (fun phase => Returned (split_clause phase)). intros w0 phase0.
    simpl. rewrite create_split_clause. reflexivity.
  - simpl. rewrite create_split_clause. reflexivity.
  - intros [g Hg].
    pose proof (Hg ∅ "TRAIN") as Hunbound.
    pose proof (Hg {["_create_split" := GFunction _create_split]} "TRAIN")
      as Hbound.
    cbn [fn_run create_query_fn] in Hunbound, Hbound.
    rewrite create_query_in_defined in Hbound by apply lookup_singleton_eq.
    unfold create_query_in, call_global, namespace in Hunbound.
    rewrite lookup_empty in Hunbound. cbn [mbind outcome_bind] in Hunbound.
    congruence.
  - intros Hw. simpl. unfold create_query_in, call_global. rewrite Hw.
    reflexivity.
  - intros Hw. simpl. rewrite create_query_in_defined by exact Hw.
    reflexivity.
Qed.

Lemma query_builders_deterministic_witness :
  fn_run create_query_fn {["_create_split" := GFunction _create_split]} "TEST"
  = (Returned (basequery +:+ where_clause "2011-09-01" "2012-11-30"),
     {["_create_split" := GFunction _create_split]})
  /\ fn_run create_query_fn ∅ "TEST" = (Failed NameError, ∅).
Proof.
  destruct (query_builders_deterministic
              {["_create_split" := GFunction _create_split]} "TEST")
    as (_ & _ & _ & Hbound).
  destruct (query_builders_deterministic ∅ "TEST") as (_ & _ & Hunbound & _).
  split.
  - apply Hbound. apply lookup_singleton_eq.
  - apply Hunbound. apply lookup_empty.
Defined.

(** ** The Cloud Build file *)

Import CloudBuild.

(** C6, as stated, fails on the file the lab writes: its first step names
    no builder, and it lists no image to push. *)
Lemma cloudbuild_vertex_not_as_described :
  ~ workflow_as_described cloudbuild_vertex.
Proof.
  intros (build & compile & run & Hsteps & [image Hbuilder] & _).
  injection Hsteps as <- _ _. discriminate Hbuilder.
Qed.

(** C6, amended: cloudbuild_vertex.yaml as the lab writes it is the
    outline of the workflow.  It lists three steps in this order: a step
    headed "Build the trainer image" whose name, args and dir are left
    blank, the step that compiles the pipeline with dsl-compile-v2 on the
    builder gcr.io/$PROJECT_ID/kfp-cli-vertex, and the step that runs
    run_pipeline.py on the same builder.  An images entry follows the
    steps, headed "Push the images to Container Registry", and its list
    is left blank: the file names no builder for the first step and no
    image to push. *)
Theorem cloudbuild_steps_in_order :
  map headings (step_list cloudbuild_vertex)
  = [["Build the trainer image"]; ["Compile the pipeline"];
     ["Run the pipeline"]]
  /\ map builder (step_list cloudbuild_vertex)
     = [None; Some "gcr.io/$PROJECT_ID/kfp-cli-vertex";
        Some "gcr.io/$PROJECT_ID/kfp-cli-vertex"]
  /\ map script (step_list cloudbuild_vertex)
     = [[]; ["-c"; "dsl-compile-v2 # TODO" +:+ nl];
        ["-c"; "python kfp-cli_vertex/run_pipeline.py  # TODO" +:+ nl]]
  /\ map (fun step => (field "name" step, field "args" step, field "dir" step))
         (take 1 (step_list cloudbuild_vertex))
     = [(Some YNull, Some YNull, Some YNull)]
  /\ (exists build compile run,
        step_list cloudbuild_vertex = [build; compile; run]
        /\ runs_on kfp_cli "dsl-compile-v2" compile
        /\ runs_on kfp_cli "run_pipeline.py" run
        /\ ~ runs_on kfp_cli "run_pipeline.py" compile
        /\ ~ runs_on kfp_cli "dsl-compile-v2" run)
  /\ (strip <$> field "images" cloudbuild_vertex) = Some YNull
  /\ image_list cloudbuild_vertex = []
  /\ (exists before after,
        keys cloudbuild_vertex = (before ++ "steps" :: after)%list
        /\ "images" ∈ after)
  /\ (headings <$> field "images" cloudbuild_vertex)
     = Some ["Push the images to Container Registry";
             "TODO: List the images to be pushed to the project Docker registry"].
Proof.
  do 4 (split; [reflexivity |]). split; [| split; [reflexivity |]].
  - do 3 eexists. split; [reflexivity |].
    split; [split; reflexivity |]. split; [split; reflexivity |].
    split; intros [_ H]; discriminate H.
  - split; [reflexivity |]. split; [| reflexivity].
    exists [], ["images"; "timeout"]. split; [reflexivity |]. left.
Qed.


(** ** The export loop *)

Lemma lookup_ensure_data_dir_ne (fs : gmap string node) (path : string) :
  path <> "../data" -> ensure_data_dir fs !! path = fs !! path.
Proof.
  intros Hne. unfold ensure_data_dir.
  destruct (fs !! "../data"); [reflexivity |].
  apply lookup_insert_ne. congruence.
Qed.

Lemma lookup_ensure_data_dir (fs : gmap string node) :
  fs !! "../data" = None \/ fs !! "../data" = Some Directory ->
  ensure_data_dir fs !! "../data" = Some Directory.
Proof.
  unfold ensure_data_dir. intros [H | H]; rewrite H.
  - apply lookup_insert_eq.
  - exact H.
Qed.

Lemma ensure_data_dir_made (fs : gmap string node) :
  fs !! "../data" = Some Directory -> ensure_data_dir fs = fs.
Proof. intros H. unfold ensure_data_dir. rewrite H. reflexivity. Qed.

Lemma csv_path_not_dir (phase : string) : csv_path phase <> "../data".
Proof.
  unfold csv_path.
  change ("../data/stock-" +:+ lower phase +:+ ".csv")
    with (String "." (String "." (String "/" (String "d" (String "a"
           (String "t" (String "a" (String "/"
             ("stock-" +:+ lower phase +:+ ".csv"))))))))).
  discriminate.
Qed.

Section ExportFacts.

Variable to_datetime : cell -> option date.
Variables (mean std : list float64 -> float64).
Variables (fsub fdiv : float64 -> float64 -> float64).
Variable of_int : Z -> float64.
Variable run_query : string -> DataFrame.

Local Abbreviation prepare :=
  (prepare to_datetime mean std fsub fdiv of_int run_query).
Local Abbreviation export_phase :=
  (export_phase to_datetime mean std fsub fdiv of_int run_query).
Local Abbreviation export_loop :=
  (export_loop to_datetime mean std fsub fdiv of_int run_query).
Local Abbreviation export_cell :=
  (export_cell to_datetime mean std fsub fdiv of_int run_query).

(** A phase whose frame cannot be prepared touches nothing. *)
Lemma export_phase_unprepared (fs : gmap string node) (phase : string)
      (e : exn) :
  prepare phase = Raise e -> export_phase fs phase = (fs, Some (Builtin e)).
Proof. intros H. unfold TimeSeries.export_phase. rewrite H. reflexivity. Qed.

(** With ../data absent or a directory and no directory in the place of
    the file, the phase writes its frame. *)
Lemma export_phase_writes (fs : gmap string node) (phase : string)
      (df : DataFrame) :
  prepare phase = Ok df ->
  fs !! "../data" = None \/ fs !! "../data" = Some Directory ->
  fs !! csv_path phase <> Some Directory ->
  export_phase fs phase
  = (<[csv_path phase := CsvFile df]> (ensure_data_dir fs), None).
Proof.
  intros Hp Hd Hf. unfold TimeSeries.export_phase, to_csv. rewrite Hp.
  rewrite (lookup_ensure_data_dir fs Hd).
  rewrite (lookup_ensure_data_dir_ne fs _ (csv_path_not_dir phase)).
  destruct (fs !! csv_path phase) as [[| df0] |]; try reflexivity.
  contradiction.
Qed.

(** A file in the place of ../data: nothing is written. *)
Lemma export_phase_below_a_file (fs : gmap string node) (phase : string)
      (df df0 : DataFrame) :
  prepare phase = Ok df ->
  fs !! "../data" = Some (CsvFile df0) ->
  export_phase fs phase = (fs, Some OSError).
Proof.
  intros Hp Hd. unfold TimeSeries.export_phase, to_csv, ensure_data_dir.
  rewrite Hp, Hd, Hd. reflexivity.
Qed.

(** A directory in the place of the file: only ../data is made. *)
Lemma export_phase_over_a_directory (fs : gmap string node) (phase : string)
      (df : DataFrame) :
  prepare phase = Ok df ->
  fs !! "../data" = None \/ fs !! "../data" = Some Directory ->
  fs !! csv_path phase = Some Directory ->
  export_phase fs phase = (ensure_data_dir fs, Some IsADirectoryError).
Proof.
  intros Hp Hd Hf. unfold TimeSeries.export_phase, to_csv. rewrite Hp.
  rewrite (lookup_ensure_data_dir fs Hd).
  rewrite (lookup_ensure_data_dir_ne fs _ (csv_path_not_dir phase)), Hf.
  reflexivity.
Qed.

(** The three ways a phase can leave the file system. *)
Lemma export_phase_cases (fs : gmap string node) (phase : string) :
  (exists e, export_phase fs phase = (fs, Some e))
  \/ (exists e, export_phase fs phase = (ensure_data_dir fs, Some e))
  \/ (exists df,
        export_phase fs phase
        = (<[csv_path phase := CsvFile df]> (ensure_data_dir fs), None)).
Proof.
  destruct (prepare phase) as [df | e] eqn:Hp.
  - destruct (fs !! "../data") as [[| df0] |] eqn:Hd.
    + destruct (fs !! csv_path phase) as [[| df1] |] eqn:Hf.
      * right; left. eexists. apply (export_phase_over_a_directory _ _ df); auto.
      * right; right. exists df. apply export_phase_writes; auto.
        rewrite Hf. discriminate.
      * right; right. exists df. apply export_phase_writes; auto.
        rewrite Hf. discriminate.
    + left. eexists. eapply export_phase_below_a_file; eassumption.
    + destruct (fs !! csv_path phase) as [[| df1] |] eqn:Hf.
      * right; left. eexists. apply (export_phase_over_a_directory _ _ df); auto.
      * right; right. exists df. apply export_phase_writes; auto.
        rewrite Hf. discriminate.
      * right; right. exists df. apply export_phase_writes; auto.
        rewrite Hf. discriminate.
  - left. eexists. apply export_phase_unprepared, Hp.
Qed.

Lemma export_loop_app (phases1 phases2 : list string) (fs : gmap string node) :
  export_loop (phases1 ++ phases2) fs =
    match export_loop phases1 fs with
    | (fs', None) => export_loop phases2 fs'
    | (fs', Some e) => (fs', Some e)
    end.
Proof.
  revert fs. induction phases1 as [| phase phases1 IH]; intros fs; simpl.
  - reflexivity.
  - destruct (export_phase fs phase) as [fs' [e |]]; [reflexivity | apply IH].
Qed.

(** When the three frames can be prepared, ../data is absent or a
    directory and no directory is in the place of a file, the cell ends
    without an exception and leaves the three CSV files in the directory
    ../data. *)
Lemma export_cell_writes (fs : gmap string node) (train valid test : DataFrame) :
  prepare "TRAIN" = Ok train ->
  prepare "VALID" = Ok valid ->
  prepare "TEST" = Ok test ->
  fs !! "../data" = None \/ fs !! "../data" = Some Directory ->
  fs !! "../data/stock-train.csv" <> Some Directory ->
  fs !! "../data/stock-valid.csv" <> Some Directory ->
  fs !! "../data/stock-test.csv" <> Some Directory ->
  export_cell fs
  = (<["../data/stock-test.csv" := CsvFile test]>
       (<["../data/stock-valid.csv" := CsvFile valid]>
          (<["../data/stock-train.csv" := CsvFile train]>
             (ensure_data_dir fs))), None).
Proof.
  intros Htrain Hvalid Htest Hd Ht Hv Hs.
  pose proof (lookup_ensure_data_dir fs Hd) as Hdir.
  unfold TimeSeries.export_cell, TimeSeries.export_loop.
  rewrite (export_phase_writes fs "TRAIN" train Htrain Hd Ht).
  change (csv_path "TRAIN") with "../data/stock-train.csv".
  rewrite (export_phase_writes _ "VALID" valid Hvalid).
  - change (csv_path "VALID") with "../data/stock-valid.csv".
    rewrite ensure_data_dir_made
      by (rewrite lookup_insert_ne by discriminate; exact Hdir).
    rewrite (export_phase_writes _ "TEST" test Htest).
    + change (csv_path "TEST") with "../data/stock-test.csv".
      rewrite ensure_data_dir_made
        by (rewrite !lookup_insert_ne by discriminate; exact Hdir).
      reflexivity.
    + right. rewrite !lookup_insert_ne by discriminate. exact Hdir.
    + change (csv_path "TEST") with "../data/stock-test.csv".
      rewrite !lookup_insert_ne, lookup_ensure_data_dir_ne by discriminate.
      exact Hs.
  - right. rewrite lookup_insert_ne by discriminate. exact Hdir.
  - change (csv_path "VALID") with "../data/stock-valid.csv".
    rewrite lookup_insert_ne, lookup_ensure_data_dir_ne by discriminate.
    exact Hv.
Qed.

End ExportFacts.


Lemma read_leading_zeros (k : nat) (s : string) :
  option_map Nat.of_uint
    (NilEmpty.uint_of_string (string_of_list_ascii (repeat "0"%char k) +:+ s))
  = option_map Nat.of_uint (NilEmpty.uint_of_string s).
Proof.
  induction k as [| k IH]; simpl; [reflexivity |].
  destruct (NilEmpty.uint_of_string
              (string_of_list_ascii (repeat "0"%char k) +:+ s)) as [d |];
    simpl in *; [| exact IH].
  rewrite <- IH. reflexivity.
Qed.

(** A zero-filled number reads back as the number. *)
Lemma read_zfill (width n : nat) :
  option_map Nat.of_uint (NilEmpty.uint_of_string (zfill width n)) = Some n.
Proof.
  unfold zfill, str. rewrite read_leading_zeros, NilEmpty.usu. simpl.
  f_equal. apply DecimalNat.Unsigned.of_to.
Qed.

Lemma zfill_inj (width a b : nat) : zfill width a = zfill width b -> a = b.
Proof.
  intros H. apply (f_equal (fun s => option_map Nat.of_uint
                                       (NilEmpty.uint_of_string s))) in H.
  rewrite !read_zfill in H. congruence.
Qed.

Lemma append_inv_head (p s1 s2 : string) : p +:+ s1 = p +:+ s2 -> s1 = s2.
Proof. induction p as [| c p IH]; simpl; [auto |]. intros [= H]. auto. Qed.

Lemma list_ascii_of_string_append (s t : string) :
  list_ascii_of_string (s +:+ t)
  = (list_ascii_of_string s ++ list_ascii_of_string t)%list.
Proof. induction s as [| c s IH]; simpl; [reflexivity | rewrite IH; reflexivity]. Qed.

Lemma append_inv_tail (s1 s2 t : string) : s1 +:+ t = s2 +:+ t -> s1 = s2.
Proof.
  intros H. apply (f_equal list_ascii_of_string) in H.
  rewrite !list_ascii_of_string_append in H. apply app_inv_tail in H.
  apply (f_equal string_of_list_ascii) in H.
  rewrite !string_of_list_ascii_of_string in H. exact H.
Qed.

Lemma image_path_inj (a b : nat) :
  DCGAN.image_path a = DCGAN.image_path b -> a = b.
Proof.
  unfold DCGAN.image_path. intros H.
  apply append_inv_head, append_inv_tail in H. eapply zfill_inj, H.
Qed.

(** ** The DCGAN training loop *)

Lemma concat_replicate_S_r {A : Type} (n : nat) (l : list A) :
  concat (replicate (S n) l) = (concat (replicate n l) ++ l)%list.
Proof.
  induction n as [| n IH]; simpl.
  - rewrite app_nil_r. reflexivity.
  - simpl in IH. rewrite IH at 1. rewrite app_assoc. reflexivity.
Qed.

Lemma checkpoint_epochs (n : nat) :
  (S n / 15 = n / 15 + (if Nat.eqb ((n + 1) mod 15) 0 then 1 else 0))%nat.
Proof.
  destruct (Nat.eqb_spec ((n + 1) mod 15) 0) as [E | E];
    replace (n + 1)%nat with (S n) in E by lia;
    assert (H1 := Nat.div_mod_eq (S n) 15);
    assert (H2 := Nat.div_mod_eq n 15);
    assert (H3 := Nat.mod_upper_bound (S n) 15 ltac:(lia));
    assert (H4 := Nat.mod_upper_bound n 15 ltac:(lia)); nia.
Qed.

Lemma checkpoint_epoch_number (n : nat) :
  ((n + 1) mod 15 = 0 -> 15 * (n / 15 + 1) = S n)%nat.
Proof.
  intros E. replace (n + 1)%nat with (S n) in E by lia.
  assert (H1 := Nat.div_mod_eq (S n) 15).
  assert (H2 := Nat.div_mod_eq n 15).
  assert (H4 := Nat.mod_upper_bound n 15 ltac:(lia)). nia.
Qed.

Lemma image_path_not_images_dir (e : nat) :
  DCGAN.image_path e <> DCGAN.images_dir.
Proof.
  unfold DCGAN.image_path, DCGAN.images_dir.
  change ("./gan_images/image_at_epoch_" +:+ zfill 4 e +:+ ".png")
    with (String "." (String "/" (String "g" (String "a" (String "n"
           (String "_" (String "i" (String "m" (String "a" (String "g"
             (String "e" (String "s" (String "/"
               ("image_at_epoch_" +:+ zfill 4 e +:+ ".png")))))))))))))).
  discriminate.
Qed.

Lemma image_path_not_checkpoint_dir (e : nat) :
  DCGAN.image_path e <> DCGAN.checkpoint_dir.
Proof.
  unfold DCGAN.image_path, DCGAN.checkpoint_dir.
  change ("./gan_images/image_at_epoch_" +:+ zfill 4 e +:+ ".png")
    with (String "." (String "/" (String "g" (String "a" (String "n"
           (String "_" (String "i"
             ("mages/image_at_epoch_" +:+ zfill 4 e +:+ ".png")))))))).
  discriminate.
Qed.

Ltac in_list := solve [repeat first [left | right]].
Ltac in_list_from H :=
  repeat (apply elem_of_cons in H as [H | H]; [rewrite H; in_list |]);
  inversion H.

Section TrainingFacts.

Import DCGAN.

Context {tensor variables gradients adam rng : Type}.
Variable random_normal : rng -> tensor * rng.
Variable generator_train : variables -> tensor -> tensor * variables.
Variable discriminator_train : variables -> tensor -> tensor * variables.
Variable generator_predict : variables -> tensor -> tensor.
Variable generator_loss : tensor -> tensor.
Variable discriminator_loss : tensor -> tensor -> tensor.
Variable tape_gradient : tensor -> (variables -> tensor) -> variables -> gradients.
Variable apply_gradients : adam -> gradients -> variables -> adam * variables.
Variable examples : tensor -> nat.

Local Abbreviation session := (session tensor variables gradients adam rng).
Local Abbreviation globals := (globals variables adam rng).
Local Abbreviation event := (event tensor variables gradients adam).

(** The missing line of [train_step], filled in as the exercise says. *)
Local Abbreviation blank := (generator_of_noise generator_train discriminator_train).

Local Abbreviation train_step :=
  (train_step random_normal generator_train discriminator_train generator_loss
     discriminator_loss tape_gradient apply_gradients blank).
Local Abbreviation train_batches :=
  (train_batches random_normal generator_train discriminator_train
     generator_loss discriminator_loss tape_gradient apply_gradients blank).
Local Abbreviation train_epochs :=
  (train_epochs random_normal generator_train discriminator_train
     generator_predict generator_loss discriminator_loss tape_gradient
     apply_gradients examples blank).
Local Abbreviation train :=
  (train random_normal generator_train discriminator_train generator_predict
     generator_loss discriminator_loss tape_gradient apply_gradients examples
     blank).
Local Abbreviation generate_and_save_images :=
  (generate_and_save_images generator_predict examples).

Local Abbreviation noise_of := (noise_of random_normal).
Local Abbreviation generated_of := (generated_of random_normal generator_train).
Local Abbreviation generator_after_pass :=
  (generator_after_pass random_normal generator_train).
Local Abbreviation discriminator_after_passes :=
  (discriminator_after_passes random_normal generator_train
     discriminator_train).
Local Abbreviation generator_gradients :=
  (generator_gradients random_normal generator_train discriminator_train
     generator_loss tape_gradient).
Local Abbreviation discriminator_gradients :=
  (discriminator_gradients random_normal generator_train discriminator_train
     discriminator_loss tape_gradient).

(** *** One step *)

Lemma train_step_names (images : tensor) (s : session) :
  names (train_step images s)
  = Globals
      (snd (apply_gradients (generator_optimizer (names s))
              (generator_gradients images (names s))
              (generator_after_pass (names s))))
      (snd (apply_gradients (discriminator_optimizer (names s))
              (discriminator_gradients images (names s))
              (discriminator_after_passes images (names s))))
      (fst (apply_gradients (generator_optimizer (names s))
              (generator_gradients images (names s))
              (generator_after_pass (names s))))
      (fst (apply_gradients (discriminator_optimizer (names s))
              (discriminator_gradients images (names s))
              (discriminator_after_passes images (names s))))
      (snd (random_normal (random_state (names s)))).
Proof. reflexivity. Qed.

Lemma train_step_log (images : tensor) (s : session) :
  log (train_step images s)
  = (log s ++
     [RandomNormal (noise_of (names s)); Call Generator (noise_of (names s));
      Call Discriminator images; Call Discriminator (generated_of (names s));
      ApplyGradients Generator (generator_gradients images (names s));
      ApplyGradients Discriminator (discriminator_gradients images (names s))])%list.
Proof.
  transitivity
    ((((((log s ++ [RandomNormal (noise_of (names s))])
         ++ [Call Generator (noise_of (names s))])
        ++ [Call Discriminator images])
       ++ [Call Discriminator (generated_of (names s))])
      ++ [ApplyGradients Generator (generator_gradients images (names s))])
     ++ [ApplyGradients Discriminator
           (discriminator_gradients images (names s))])%list.
  - reflexivity.
  - rewrite <- !app_assoc. reflexivity.
Qed.

Lemma train_step_disk (images : tensor) (s : session) :
  disk (train_step images s) = disk s.
Proof. reflexivity. Qed.

(** *** The batches of an epoch *)

Lemma train_batches_app (l1 l2 : list tensor) (s : session) :
  train_batches (l1 ++ l2) s = train_batches l2 (train_batches l1 s).
Proof. apply fold_left_app. Qed.

Lemma train_batches_disk (dataset : list tensor) (s : session) :
  disk (train_batches dataset s) = disk s.
Proof.
  unfold DCGAN.train_batches. revert s.
  induction dataset as [| images dataset IH]; intros s; simpl;
    [reflexivity | rewrite IH; reflexivity].
Qed.

(** The steps read and write the globals only: from equal globals they
    leave equal globals and add the same calls to the log, none of them a
    checkpoint. *)
Lemma train_batches_names (dataset : list tensor) (s1 s2 : session) :
  names s1 = names s2 ->
  names (train_batches dataset s1) = names (train_batches dataset s2)
  /\ exists evs,
      log (train_batches dataset s1) = (log s1 ++ evs)%list
      /\ log (train_batches dataset s2) = (log s2 ++ evs)%list
      /\ training_events evs = evs
      /\ checkpoints_saved evs = [].
Proof.
  unfold DCGAN.train_batches. revert s1 s2.
  induction dataset as [| images dataset IH]; intros s1 s2 Hn; simpl.
  - split; [exact Hn |]. exists []. rewrite !app_nil_r. repeat split.
  - assert (Hstep : names (train_step images s1) = names (train_step images s2))
      by (rewrite !train_step_names, Hn; reflexivity).
    destruct (IH _ _ Hstep) as (Hnames & evs & Hl1 & Hl2 & Ht & Hc).
    split; [exact Hnames |].
    eexists. rewrite Hl1, Hl2, !train_step_log, Hn, <- !app_assoc.
    split; [reflexivity |]. split; [reflexivity |].
    unfold training_events, checkpoints_saved in *.
    rewrite !omap_app, Ht, Hc. split; reflexivity.
Qed.

Lemma training_events_app (l1 l2 : list event) :
  training_events (l1 ++ l2) = (training_events l1 ++ training_events l2)%list.
Proof. apply omap_app. Qed.

Lemma checkpoints_saved_app (l1 l2 : list event) :
  checkpoints_saved (l1 ++ l2)
  = (checkpoints_saved l1 ++ checkpoints_saved l2)%list.
Proof. apply omap_app. Qed.

(** *** Saving *)

Lemma generate_and_save_images_saves (model : variables) (epoch : nat)
      (seed : tensor) (s : session) :
  (examples (generator_predict model seed) <= 16)%nat ->
  disk s !! images_dir = Some Folder ->
  disk s !! image_path epoch <> Some Folder ->
  generate_and_save_images model epoch seed s
  = (set_disk (<[image_path epoch := Figure (generator_predict model seed)]>
                 (disk s)) s, None).
Proof.
  intros Hex Hdir Hfig. unfold DCGAN.generate_and_save_images, savefig.
  apply Nat.ltb_ge in Hex. rewrite Hex, Hdir.
  destruct (disk s !! image_path epoch) as [[| p] |]; try reflexivity.
  contradiction.
Qed.

Lemma generate_and_save_images_no_folder (model : variables) (epoch : nat)
      (seed : tensor) (s : session) :
  (examples (generator_predict model seed) <= 16)%nat ->
  disk s !! images_dir = None ->
  generate_and_save_images model epoch seed s = (s, Some FileNotFoundError).
Proof.
  intros Hex Hdir. unfold DCGAN.generate_and_save_images, savefig.
  apply Nat.ltb_ge in Hex. rewrite Hex, Hdir. reflexivity.
Qed.

Lemma checkpoint_save_saves (file_prefix : string) (s : session) :
  (forall p, disk s !! checkpoint_dir <> Some (Figure p)) ->
  checkpoint_save file_prefix s
  = (emit [CheckpointSave file_prefix (generator (names s))
             (discriminator (names s)) (generator_optimizer (names s))
             (discriminator_optimizer (names s))]
          (set_disk (<[checkpoint_dir := Folder]> (disk s)) s), None).
Proof.
  intros Hc. unfold checkpoint_save.
  destruct (disk s !! checkpoint_dir) as [[| p] |] eqn:E; try reflexivity.
  destruct (Hc p). reflexivity.
Qed.

(** What saving can fail with. *)
Lemma generate_and_save_images_fails_only (model : variables) (epoch : nat)
      (seed : tensor) (s : session) :
  fails_only (snd (generate_and_save_images model epoch seed s))
    [Builtin ValueError; FileNotFoundError; OSError; IsADirectoryError].
Proof.
  unfold DCGAN.generate_and_save_images, savefig. intros e.
  destruct (_ <? _)%nat; [intros [= <-]; in_list |].
  destruct (disk s !! images_dir) as [[| p] |];
    [| intros [= <-]; in_list | intros [= <-]; in_list].
  destruct (disk s !! image_path epoch) as [[| p] |]; simpl;
    intros [= <-] || discriminate. in_list.
Qed.

Lemma checkpoint_save_fails_only (file_prefix : string) (s : session) :
  fails_only (snd (checkpoint_save file_prefix s)) [OpError].
Proof.
  unfold checkpoint_save. intros e.
  destruct (disk s !! checkpoint_dir) as [[| p] |]; simpl;
    intros [= <-] || discriminate. in_list.
Qed.

Lemma train_epochs_app (dataset : list tensor) (seed : tensor)
      (epochs1 epochs2 : list nat) (s : session) :
  train_epochs dataset seed (epochs1 ++ epochs2) s
  = match train_epochs dataset seed epochs1 s with
    | (s', None) => train_epochs dataset seed epochs2 s'
    | (s', Some e) => (s', Some e)
    end.
Proof.
  revert s. induction epochs1 as [| epoch epochs1 IH]; intros s.
  - reflexivity.
  - cbn [app DCGAN.train_epochs].
    destruct (generate_and_save_images _ _ _ _) as [s1 [e |]];
      [reflexivity |].
    destruct (Nat.eqb _ 0); [| apply IH].
    destruct (checkpoint_save _ _) as [s2 [e |]]; [reflexivity | apply IH].
Qed.

Lemma train_epochs_fails_only (dataset : list tensor) (seed : tensor)
      (epochs : list nat) (s : session) :
  fails_only (snd (train_epochs dataset seed epochs s))
    [Builtin ValueError; FileNotFoundError; OSError; IsADirectoryError;
     OpError].
Proof.
  revert s. induction epochs as [| epoch epochs IH]; intros s.
  - intros e. discriminate.
  - cbn [DCGAN.train_epochs].
    pose proof (generate_and_save_images_fails_only
                  (generator (names (emit [ClearOutput] (train_batches dataset s))))
                  (epoch + 1) seed (emit [ClearOutput] (train_batches dataset s)))
      as Hg.
    destruct (generate_and_save_images _ _ _ _) as [s1 [e |]].
    + intros e' [= <-]. specialize (Hg e eq_refl). in_list_from Hg.
    + destruct (Nat.eqb _ 0); [| apply IH].
      pose proof (checkpoint_save_fails_only checkpoint_prefix s1) as Hc.
      destruct (checkpoint_save _ _) as [s2 [e |]]; [| apply IH].
      intros e' [= <-]. specialize (Hc e eq_refl). in_list_from Hc.
Qed.

Lemma train_fails_only (dataset : list tensor) (seed : tensor) (epochs : nat)
      (s : session) :
  fails_only (snd (train dataset seed epochs s))
    [Builtin ValueError; FileNotFoundError; OSError; IsADirectoryError;
     OpError].
Proof.
  unfold DCGAN.train.
  pose proof (train_epochs_fails_only dataset seed (seq 0 epochs) s) as Hl.
  destruct (train_epochs _ _ _ _) as [s1 [e |]].
  - exact Hl.
  - intros e He.
    apply (generate_and_save_images_fails_only
             (generator (names (emit [ClearOutput] s1))) epochs seed
             (emit [ClearOutput] s1)) in He.
    in_list_from He.
Qed.

(** *** A whole training run *)

Section Run.

Variables (dataset : list tensor) (seed : tensor) (s : session).

(** The figure has room for the examples of the seed, ./gan_images is a
    directory, no directory is in the place of a figure and no file in
    the place of the checkpoint directory. *)
Hypothesis Hexamples :
  forall g, (examples (generator_predict g seed) <= 16)%nat.
Hypothesis Hdir : disk s !! images_dir = Some Folder.
Hypothesis Hfig : forall e, disk s !! image_path e <> Some Folder.
Hypothesis Hckpt : forall p, disk s !! checkpoint_dir <> Some (Figure p).

(** The session after the steps of [k] epochs, and the figure of the
    generator it holds. *)
Local Abbreviation trained k :=
  (train_batches (concat (replicate k dataset)) s).
Local Abbreviation figure k :=
  (Figure (generator_predict (generator (names (trained k))) seed)).

Lemma train_epochs_runs (n : nat) :
  exists s',
    train_epochs dataset seed (seq 0 n) s = (s', None)
    /\ names s' = names (trained n)
    /\ training_events (log s') = training_events (log (trained n))
    /\ checkpoints_saved (log s')
       = (checkpoints_saved (log s)
          ++ map (fun k => (checkpoint_prefix,
                            tracked (names (trained (15 * (k + 1))))))
                 (seq 0 (n / 15)))%list
    /\ disk s' !! images_dir = Some Folder
    /\ (forall e, (1 <= e <= n)%nat -> disk s' !! image_path e = Some (figure e))
    /\ (forall path,
          path <> checkpoint_dir ->
          (forall e, (1 <= e <= n)%nat -> path <> image_path e) ->
          disk s' !! path = disk s !! path)
    /\ disk s' !! checkpoint_dir
       = (if decide (15 <= n)%nat then Some Folder
          else disk s !! checkpoint_dir).
Proof.
  induction n as [| n (s' & Hrun & Hnames & Hcalls & Hsaved & Hd & Hfigs
                         & Hframe & Hcdir)].
  - exists s. simpl. rewrite app_nil_r. repeat split; try assumption.
    + intros e He. lia.
  - rewrite seq_S, train_epochs_app, Hrun. cbn [Nat.add DCGAN.train_epochs].
    set (sa := train_batches dataset s').
    destruct (train_batches_names dataset s' (trained n) Hnames)
      as (Hna & evs & Hla & Hlt & Hte & Hce).
    rewrite <- train_batches_app, <- concat_replicate_S_r in Hna, Hlt.
    fold sa in Hna, Hla.
    assert (Hdisk : disk (emit [ClearOutput] sa) = disk s')
      by (unfold sa; cbn [disk emit]; apply train_batches_disk).
    rewrite generate_and_save_images_saves;
      [| apply Hexamples | rewrite Hdisk; exact Hd |].
    2:{ rewrite Hdisk, Hframe.
        - apply Hfig.
        - apply image_path_not_checkpoint_dir.
        - intros e He Heq. apply image_path_inj in Heq. lia. }
    rewrite Hdisk. cbn [names emit].
    set (sb := set_disk _ (emit [ClearOutput] sa)).
    assert (Hnb : names sb = names (trained (S n))) by exact Hna.
    assert (Hlb : log sb = (log s' ++ evs ++ [ClearOutput])%list).
    { unfold sb. cbn [log set_disk emit]. rewrite Hla, <- app_assoc.
      reflexivity. }
    assert (Hdb : disk sb = <[image_path (n + 1) := figure (S n)]> (disk s')).
    { unfold sb. cbn [disk set_disk]. rewrite Hna. reflexivity. }
    assert (Hcallsb : training_events (log sb)
                      = training_events (log (trained (S n)))).
    { rewrite Hlb, Hlt, !training_events_app, Hcalls. simpl.
      rewrite app_nil_r. reflexivity. }
    assert (Hsavedb : checkpoints_saved (log sb) = checkpoints_saved (log s')).
    { rewrite Hlb, !checkpoints_saved_app, Hce. simpl.
      rewrite !app_nil_r. reflexivity. }
    assert (Hfigsb : forall e, (1 <= e <= S n)%nat ->
                               disk sb !! image_path e = Some (figure e)).
    { intros e He. rewrite Hdb.
      destruct (decide (e = S n)) as [-> | Hne].
      - replace (n + 1)%nat with (S n) by lia. apply lookup_insert_eq.
      - rewrite lookup_insert_ne
          by (intros Heq; apply image_path_inj in Heq; lia).
        apply Hfigs. lia. }
    assert (Hframeb : forall path,
               path <> checkpoint_dir ->
               (forall e, (1 <= e <= S n)%nat -> path <> image_path e) ->
               disk sb !! path = disk s !! path).
    { intros path Hp Hne. rewrite Hdb.
      rewrite lookup_insert_ne
        by (intros Heq; apply (Hne (S n)); [lia |];
            rewrite <- Heq; f_equal; lia).
      apply Hframe; [exact Hp |]. intros e He. apply Hne. lia. }
    assert (Hdirb : disk sb !! images_dir = Some Folder).
    { rewrite Hdb, lookup_insert_ne by apply image_path_not_images_dir.
      exact Hd. }
    assert (Hcdirb : disk sb !! checkpoint_dir = disk s' !! checkpoint_dir).
    { rewrite Hdb. apply lookup_insert_ne, image_path_not_checkpoint_dir. }
    clearbody sb. pose proof (checkpoint_epochs n) as Hdiv.
    destruct (Nat.eqb_spec ((n + 1) mod 15) 0) as [Emod | Emod].
    + rewrite checkpoint_save_saves.
      2:{ intros p. rewrite Hcdirb, Hcdir.
          destruct (decide (15 <= n)%nat); [discriminate | apply Hckpt]. }
      eexists. split; [reflexivity |]. cbn [names log disk emit set_disk].
      split; [exact Hnb |]. split.
      { rewrite training_events_app, Hcallsb. simpl. apply app_nil_r. }
      split.
      { rewrite checkpoints_saved_app, Hsavedb, Hsaved, Hdiv.
        rewrite seq_app, map_app, app_assoc. f_equal.
        cbn [seq map Nat.add].
        rewrite (checkpoint_epoch_number n Emod), <- Hnb. reflexivity. }
      split.
      { rewrite lookup_insert_ne by discriminate. exact Hdirb. }
      split.
      { intros e He.
        rewrite lookup_insert_ne
          by (intros Heq; symmetry in Heq;
              apply (image_path_not_checkpoint_dir e), Heq).
        apply Hfigsb, He. }
      split.
      { intros path Hp Hne. rewrite lookup_insert_ne by congruence.
        apply Hframeb; assumption. }
      rewrite lookup_insert_eq.
      pose proof (checkpoint_epoch_number n Emod).
      rewrite decide_True by lia. reflexivity.
    + exists sb. split; [reflexivity |].
      split; [exact Hnb |]. split; [exact Hcallsb |]. split.
      { rewrite Hsavedb, Hsaved, Hdiv, Nat.add_0_r. reflexivity. }
      split; [exact Hdirb |]. split; [exact Hfigsb |].
      split; [exact Hframeb |].
      rewrite Hcdirb, Hcdir.
      destruct (decide (15 <= n)%nat) as [Hn | Hn],
        (decide (15 <= S n)%nat) as [Hs | Hs]; try reflexivity; try lia.
      exfalso. apply Emod. assert (n = 14)%nat as -> by lia. reflexivity.
Qed.

(** With the four conditions, [train] runs every epoch and ends without
    an exception: the globals and the calls are those of the steps on
    the batches, epoch after epoch; a checkpoint is saved after every
    fifteenth epoch and at no other time, with the values of that time;
    and the disk holds the figure of each epoch, and under the number
    [epochs] the figure saved after the loop. *)
Lemma train_runs (epochs : nat) :
  exists s',
    train dataset seed epochs s = (s', None)
    /\ names s' = names (trained epochs)
    /\ training_events (log s') = training_events (log (trained epochs))
    /\ checkpoints_saved (log s')
       = (checkpoints_saved (log s)
          ++ map (fun k => (checkpoint_prefix,
                            tracked (names (trained (15 * (k + 1))))))
                 (seq 0 (epochs / 15)))%list
    /\ (forall e, (1 <= e <= epochs)%nat \/ e = epochs ->
                  disk s' !! image_path e = Some (figure e))
    /\ (forall path,
          path <> checkpoint_dir ->
          (forall e, (1 <= e <= epochs)%nat \/ e = epochs ->
                     path <> image_path e) ->
          disk s' !! path = disk s !! path)
    /\ disk s' !! checkpoint_dir
       = (if decide (15 <= epochs)%nat then Some Folder
          else disk s !! checkpoint_dir).
Proof.
  destruct (train_epochs_runs epochs)
    as (s1 & Hrun & Hnames & Hcalls & Hsaved & Hd & Hfigs & Hframe & Hcdir).
  unfold DCGAN.train. rewrite Hrun.
  rewrite generate_and_save_images_saves;
    [| apply Hexamples | exact Hd |].
  2:{ cbn [disk emit].
      destruct (decide (1 <= epochs)%nat) as [Hpos | Hzero].
      - rewrite Hfigs by lia. discriminate.
      - rewrite Hframe.
        + apply Hfig.
        + apply image_path_not_checkpoint_dir.
        + intros e He. lia. }
  eexists. split; [reflexivity |]. cbn [names log disk emit set_disk].
  split; [exact Hnames |]. split.
  { rewrite training_events_app, Hcalls. simpl. apply app_nil_r. }
  split.
  { rewrite checkpoints_saved_app, Hsaved. simpl. apply app_nil_r. }
  split.
  { intros e He. destruct (decide (e = epochs)) as [-> | Hne].
    - rewrite lookup_insert_eq, Hnames. reflexivity.
    - rewrite lookup_insert_ne
        by (intros Heq; apply image_path_inj in Heq; congruence).
      apply Hfigs. lia. }
  split.
  { intros path Hp Hne.
    rewrite lookup_insert_ne by (intros Heq; apply (Hne epochs); auto).
    apply Hframe; [exact Hp |]. intros e He. apply Hne. auto. }
  rewrite lookup_insert_ne by apply image_path_not_checkpoint_dir.
  exact Hcdir.
Qed.

End Run.

(** Without the directory ./gan_images, [train] stops at the figure of
    the first epoch, after the steps of that epoch. *)
Lemma train_without_folder (dataset : list tensor) (seed : tensor)
      (epochs : nat) (s : session) :
  (forall g, (examples (generator_predict g seed) <= 16)%nat) ->
  disk s !! images_dir = None ->
  (1 <= epochs)%nat ->
  train dataset seed epochs s
  = (emit [ClearOutput] (train_batches dataset s), Some FileNotFoundError).
Proof.
  intros Hex Hdir Hpos. unfold DCGAN.train.
  destruct epochs as [| epochs]; [lia |].
  cbn [seq DCGAN.train_epochs].
  rewrite generate_and_save_images_no_folder; [reflexivity | apply Hex |].
  cbn [disk emit]. rewrite train_batches_disk. exact Hdir.
Qed.

End TrainingFacts.

Section PairedTraining.

Import DCGAN.

Context {tensor variables gradients adam rng : Type}.
Variable random_normal : rng -> tensor * rng.
Variable generator_train : variables -> tensor -> tensor * variables.
Variable discriminator_train : variables -> tensor -> tensor * variables.
Variable generator_predict : variables -> tensor -> tensor.
Variable generator_loss : tensor -> tensor.
Variable discriminator_loss : tensor -> tensor -> tensor.
Variable tape_gradient : tensor -> (variables -> tensor) -> variables -> gradients.
Variable apply_gradients : adam -> gradients -> variables -> adam * variables.
Variable examples : tensor -> nat.

Local Abbreviation session := (session tensor variables gradients adam rng).
Local Abbreviation blank := (generator_of_noise generator_train discriminator_train).
Local Abbreviation train_step :=
  (train_step random_normal generator_train discriminator_train generator_loss
     discriminator_loss tape_gradient apply_gradients blank).
Local Abbreviation train_batches :=
  (train_batches random_normal generator_train discriminator_train
     generator_loss discriminator_loss tape_gradient apply_gradients blank).
Local Abbreviation train :=
  (train random_normal generator_train discriminator_train generator_predict
     generator_loss discriminator_loss tape_gradient apply_gradients examples
     blank).
Local Abbreviation one_step_per_batch :=
  (one_step_per_batch random_normal generator_train discriminator_train
     generator_predict generator_loss discriminator_loss tape_gradient
     apply_gradients examples blank).
Local Abbreviation noise_of := (noise_of random_normal).
Local Abbreviation generated_of := (generated_of random_normal generator_train).
Local Abbreviation generator_after_pass :=
  (generator_after_pass random_normal generator_train).
Local Abbreviation discriminator_after_passes :=
  (discriminator_after_passes random_normal generator_train
     discriminator_train).
Local Abbreviation generator_gradients :=
  (generator_gradients random_normal generator_train discriminator_train
     generator_loss tape_gradient).
Local Abbreviation discriminator_gradients :=
  (discriminator_gradients random_normal generator_train discriminator_train
     discriminator_loss tape_gradient).

(** C8, amended: with the missing line of [train_step] filled in as the
    exercise says (the generator applied to the noise), one call of
    [train_step] draws one noise batch and advances the random state,
    passes the noise through the generator, applies the discriminator to
    the real images and then to the generated images, and applies one
    gradient update to the variables of the generator and one to those of
    the discriminator, each with the gradient of its own loss; it leaves
    the disk alone.  [train] makes these steps on each batch of the
    dataset, in order, in each epoch, when every figure can be saved:
    when the seed has at most 16 examples, ./gan_images is a directory,
    no directory is in the place of a figure and no file in the place of
    the checkpoint directory.  When ./gan_images is missing and there is
    an epoch to run, it stops with FileNotFoundError after the steps of
    the first epoch. *)
Theorem train_step_pairs_updates
        (images : tensor) (dataset : list tensor) (seed : tensor)
        (epochs : nat) (s : session) :
  log (train_step images s)
  = (log s ++
     [RandomNormal (noise_of (names s)); Call Generator (noise_of (names s));
      Call Discriminator images; Call Discriminator (generated_of (names s));
      ApplyGradients Generator (generator_gradients images (names s));
      ApplyGradients Discriminator (discriminator_gradients images (names s))])%list
  /\ random_state (names (train_step images s))
     = snd (random_normal (random_state (names s)))
  /\ (generator_optimizer (names (train_step images s)),
      generator (names (train_step images s)))
     = apply_gradients (generator_optimizer (names s))
         (generator_gradients images (names s))
         (generator_after_pass (names s))
  /\ (discriminator_optimizer (names (train_step images s)),
      discriminator (names (train_step images s)))
     = apply_gradients (discriminator_optimizer (names s))
         (discriminator_gradients images (names s))
         (discriminator_after_passes images (names s))
  /\ disk (train_step images s) = disk s
  /\ ((forall g, (examples (generator_predict g seed) <= 16)%nat) ->
      disk s !! images_dir = Some Folder ->
      (forall e, disk s !! image_path e <> Some Folder) ->
      (forall p, disk s !! checkpoint_dir <> Some (Figure p)) ->
      one_step_per_batch dataset seed epochs s)
  /\ ((forall g, (examples (generator_predict g seed) <= 16)%nat) ->
      disk s !! images_dir = None ->
      (1 <= epochs)%nat ->
      train dataset seed epochs s
      = (emit [ClearOutput] (train_batches dataset s), Some FileNotFoundError)).
Proof.
  split; [apply train_step_log |].
  split; [rewrite train_step_names; reflexivity |].
  split; [rewrite train_step_names; cbn [generator generator_optimizer];
          symmetry; apply surjective_pairing |].
  split; [rewrite train_step_names;
          cbn [discriminator discriminator_optimizer];
          symmetry; apply surjective_pairing |].
  split; [reflexivity |]. split.
  - intros Hex Hdir Hfig Hckpt.
    destruct (train_runs random_normal generator_train discriminator_train
                generator_predict generator_loss discriminator_loss
                tape_gradient apply_gradients examples dataset seed s
                Hex Hdir Hfig Hckpt epochs)
      as (s' & Hrun & Hnames & Hcalls & _).
    unfold DCGAN.one_step_per_batch. rewrite Hrun. cbn [fst snd].
    split; [reflexivity |]. split; assumption.
  - apply train_without_folder.
Qed.

End PairedTraining.

(** C8, as stated, fails in the notebook as it comes: no cell makes
    ./gan_images, and on a disk without it [train] ends with
    FileNotFoundError after the first of two epochs. *)
Lemma train_stops_without_folder :
  ~ DCGAN.one_step_per_batch Examples.random_normal0 Examples.generator_train0
      Examples.discriminator_train0 Examples.generator_predict0
      Examples.generator_loss0 Examples.discriminator_loss0
      Examples.tape_gradient0 Examples.apply_gradients0 Examples.examples0
      (DCGAN.generator_of_noise Examples.generator_train0
         Examples.discriminator_train0)
      [5; 7] 9 2 Examples.session0.
Proof.
  intros [Hend _]. vm_compute in Hend. discriminate Hend.
Qed.

Lemma train_step_pairs_updates_witness :
  DCGAN.one_step_per_batch Examples.random_normal0 Examples.generator_train0
    Examples.discriminator_train0 Examples.generator_predict0
    Examples.generator_loss0 Examples.discriminator_loss0
    Examples.tape_gradient0 Examples.apply_gradients0 Examples.examples0
    (DCGAN.generator_of_noise Examples.generator_train0
       Examples.discriminator_train0)
    [5; 7] 9 2 Examples.session_with_folder
  /\ snd (DCGAN.train Examples.random_normal0 Examples.generator_train0
            Examples.discriminator_train0 Examples.generator_predict0
            Examples.generator_loss0 Examples.discriminator_loss0
            Examples.tape_gradient0 Examples.apply_gradients0
            Examples.examples0
            (DCGAN.generator_of_noise Examples.generator_train0
               Examples.discriminator_train0)
            [5; 7] 9 2 Examples.session0)
     = Some Os.FileNotFoundError.
Proof.
  destruct (train_step_pairs_updates Examples.random_normal0
              Examples.generator_train0 Examples.discriminator_train0
              Examples.generator_predict0 Examples.generator_loss0
              Examples.discriminator_loss0 Examples.tape_gradient0
              Examples.apply_gradients0 Examples.examples0
              5 [5; 7] 9 2%nat Examples.session_with_folder)
    as (_ & _ & _ & _ & _ & Hruns & _).
  destruct (train_step_pairs_updates Examples.random_normal0
              Examples.generator_train0 Examples.discriminator_train0
              Examples.generator_predict0 Examples.generator_loss0
              Examples.discriminator_loss0 Examples.tape_gradient0
              Examples.apply_gradients0 Examples.examples0
              5 [5; 7] 9 2%nat Examples.session0)
    as (_ & _ & _ & _ & _ & _ & Hstops).
  split.
  - apply Hruns.
    + intros g. unfold Examples.examples0. lia.
    + reflexivity.
    + intros e. cbn [DCGAN.disk Examples.session_with_folder].
      rewrite lookup_singleton_ne
        by (intros Heq; symmetry in Heq;
            apply (image_path_not_images_dir e), Heq).
      discriminate.
    + intros p. cbn [DCGAN.disk Examples.session_with_folder].
      rewrite lookup_singleton_ne by discriminate. discriminate.
  - rewrite Hstops; [reflexivity | | reflexivity | lia].
    intros g. unfold Examples.examples0. lia.
Defined.

(** ** What the notebooks leave on disk *)

Section Persistence.

Variable to_datetime : cell -> option date.
Variables (mean std : list float64 -> float64).
Variables (fsub fdiv : float64 -> float64 -> float64).
Variable of_int : Z -> float64.
Variable run_query : string -> DataFrame.

Context {tensor variables gradients adam rng : Type}.
Variable random_normal : rng -> tensor * rng.
Variable generator_train : variables -> tensor -> tensor * variables.
Variable discriminator_train : variables -> tensor -> tensor * variables.
Variable generator_predict : variables -> tensor -> tensor.
Variable generator_loss : tensor -> tensor.
Variable discriminator_loss : tensor -> tensor -> tensor.
Variable tape_gradient : tensor -> (variables -> tensor) -> variables -> gradients.
Variable apply_gradients : adam -> gradients -> variables -> adam * variables.
Variable examples : tensor -> nat.

Local Abbreviation prepare :=
  (prepare to_datetime mean std fsub fdiv of_int run_query).
Local Abbreviation export_cell :=
  (export_cell to_datetime mean std fsub fdiv of_int run_query).
Local Abbreviation blank :=
  (DCGAN.generator_of_noise generator_train discriminator_train).
Local Abbreviation train_batches :=
  (DCGAN.train_batches random_normal generator_train discriminator_train
     generator_loss discriminator_loss tape_gradient apply_gradients blank).
Local Abbreviation train :=
  (DCGAN.train random_normal generator_train discriminator_train
     generator_predict generator_loss discriminator_loss tape_gradient
     apply_gradients examples blank).


End Persistence.


(** ** The exceptions of the notebooks *)

Lemma mapM_result_Raise {A B : Type} (f : A -> result B) (l : list A)
      (e : exn) :
  mapM f l = Raise e -> exists x, x ∈ l /\ f x = Raise e.
Proof.
  induction l as [| a l IH]; simpl; [discriminate |].
  destruct (f a) as [b | e0] eqn:Ea; simpl.
  - destruct (mapM f l) as [bs | e1]; simpl; [discriminate |].
    intros [= <-]. destruct (IH eq_refl) as (x & Hin & Hx).
    exists x. split; [right; exact Hin | exact Hx].
  - intros [= <-]. exists a. split; [left | exact Ea].
Qed.

Section ExceptionFacts.

Variable to_datetime : cell -> option date.
Variables (mean std : list float64 -> float64).
Variables (fsub fdiv : float64 -> float64 -> float64).
Variable of_int : Z -> float64.

Context {tensor variables gradients adam rng : Type}.
Variable random_normal : rng -> tensor * rng.
Variable generator_train : variables -> tensor -> tensor * variables.
Variable discriminator_train : variables -> tensor -> tensor * variables.
Variable generator_predict : variables -> tensor -> tensor.
Variable generator_loss : tensor -> tensor.
Variable discriminator_loss : tensor -> tensor -> tensor.
Variable tape_gradient : tensor -> (variables -> tensor) -> variables -> gradients.
Variable apply_gradients : adam -> gradients -> variables -> adam * variables.
Variable examples : tensor -> nat.

Local Abbreviation scale_column := (scale_column mean std fsub fdiv of_int).
Local Abbreviation _scale_features := (_scale_features mean std fsub fdiv of_int).
Local Abbreviation create_features := (create_features mean std fsub fdiv of_int).
Local Abbreviation generate_and_save_images :=
  (DCGAN.generate_and_save_images generator_predict examples).
Local Abbreviation train :=
  (DCGAN.train random_normal generator_train discriminator_train
     generator_predict generator_loss discriminator_loss tape_gradient
     apply_gradients examples
     (DCGAN.generator_of_noise generator_train discriminator_train)).

Lemma scale_features_raises (df : DataFrame) (e : exn) :
  _scale_features df = Raise e -> e = TypeError.
Proof.
  unfold TimeSeries._scale_features. intros H.
  apply mapM_result_Raise in H as ([name col] & _ & Hcol). simpl in Hcol.
  destruct (scale_column col) as [scaled | e0] eqn:Hs; simpl in Hcol;
    [discriminate |].
  injection Hcol as <-. unfold TimeSeries.scale_column in Hs.
  destruct (mapM (to_float of_int) col) as [xs | e1] eqn:Hx; simpl in Hs;
    [discriminate |].
  injection Hs as <-. apply mapM_result_Raise in Hx as (c & _ & Hc).
  destruct c; simpl in Hc; congruence.
Qed.

Lemma create_features_raises (df : DataFrame) (label_name : string) (e : exn) :
  create_features df label_name = Raise e ->
  e = KeyError \/ e = ValueError \/ e = TypeError.
Proof.
  unfold TimeSeries.create_features.
  destruct (getitem df STOCK_HISTORY_COLUMN) as [history | e0] eqn:Hh;
    cbn [mbind result_bind].
  - destruct history as [| c history].
    + destruct (getitem df LABEL) as [label | e1] eqn:Hl;
        cbn [mbind result_bind]; [discriminate |].
      intros [= <-]. left. eapply getitem_raises_KeyError, Hl.
    + unfold set_columns.
      destruct (Nat.eqb _ _); cbn [mbind result_bind];
        [| intros [= <-]; auto].
      destruct (_scale_features _) as [scaled | e1] eqn:Hs;
        cbn [mbind result_bind].
      * destruct (getitem df LABEL) as [label | e2] eqn:Hl;
          cbn [mbind result_bind]; [discriminate |].
        intros [= <-]. left. eapply getitem_raises_KeyError, Hl.
      * intros [= <-]. right; right. eapply scale_features_raises, Hs.
  - intros [= <-]. left. eapply getitem_raises_KeyError, Hh.
Qed.


End ExceptionFacts.


(** * Further properties of the notebooks' code *)

Import Os Cells.

(** ** [clean_data]: what it keeps and what it writes *)

Lemma getitem_Ok_elem_of (df : DataFrame) (name : string) (s : Series) :
  getitem df name = Ok s -> name ∈ column_names df.
Proof.
  unfold column_names. induction df as [| [n s0] df IH]; simpl; [discriminate |].
  destruct (String.eqb_spec n name) as [-> | Hne].
  - intros _. left.
  - intros H. right. apply IH, H.
Qed.

Lemma column_names_setitem (df : DataFrame) (name : string) (s : Series) :
  column_names (setitem df name s) =
    if decide (name ∈ column_names df) then column_names df
    else (column_names df ++ [name])%list.
Proof.
  unfold column_names. induction df as [| [n s0] df IH].
  - destruct (decide (name ∈ map fst ([] : DataFrame))) as [Hin | _];
      [inversion Hin | reflexivity].
  - cbn [setitem map fst].
    destruct (String.eqb_spec n name) as [-> | Hne]; cbn [map fst app].
    + destruct (decide (name ∈ name :: map fst df)) as [_ | Hnin];
        [reflexivity |]. exfalso. apply Hnin. left.
    + rewrite IH.
      destruct (decide (name ∈ map fst df)) as [Hin | Hnin],
        (decide (name ∈ n :: map fst df)) as [Hin' | Hnin'];
        try reflexivity; exfalso.
      * apply Hnin'. right. exact Hin.
      * apply elem_of_cons in Hin' as [-> | Hin']; contradiction.
Qed.

Lemma apply_direction_code_Ok (direction codes : Series) :
  mapM direction_code direction = Ok codes ->
  Forall2 (fun d c =>
             (d = CStr "DOWN" /\ c = CInt 0) \/ (d = CStr "STAY" /\ c = CInt 1)
             \/ (d = CStr "UP" /\ c = CInt 2))
          direction codes.
Proof.
  revert codes. induction direction as [| d l IH]; simpl; intros codes H.
  - injection H as <-. constructor.
  - destruct (direction_code d) as [c | e] eqn:Ed; simpl in H; [| discriminate].
    destruct (mapM direction_code l) as [cs | e]; simpl in H; [| discriminate].
    injection H as <-. constructor; [| apply IH; reflexivity].
    destruct d as [| s | | | |]; simpl in Ed; try discriminate.
    rewrite direction_codes_lookup in Ed.
    repeat case_decide; subst; try discriminate; injection Ed as <-; auto.
Qed.

(** X1: a successful [clean_data] keeps the columns of its input in their
    order, adds direction_numeric at the end unless the input already has a
    column of that name, and returns every column other than Date and
    direction_numeric as it came. *)
Theorem clean_data_layout
        (to_datetime : cell -> option date) (df df' : DataFrame) :
  clean_data to_datetime df = Ok df' ->
  column_names df' =
    (if decide ("direction_numeric" ∈ column_names df) then column_names df
     else (column_names df ++ ["direction_numeric"])%list)
  /\ forall other,
      other <> "Date" -> other <> "direction_numeric" ->
      getitem df' other = getitem df other.
Proof.
  intros Hc. split;
    [| intros other; apply (clean_data_other_columns to_datetime df df' other Hc)].
  destruct (getitem df "Date") as [date | e] eqn:Hdate.
  - rewrite (clean_data_with_date to_datetime df date Hdate) in Hc.
    destruct (getitem df "direction") as [direction | e]; simpl in Hc;
      [| discriminate].
    destruct (mapM direction_code direction); simpl in Hc; [| discriminate].
    injection Hc as <-.
    rewrite !column_names_setitem.
    rewrite (decide_True (P := "Date" ∈ column_names df))
      by (eapply getitem_Ok_elem_of, Hdate).
    reflexivity.
  - unfold clean_data in Hc. rewrite Hdate in Hc. discriminate.
Qed.

Lemma clean_data_layout_witness :
  column_names Examples.cleaned_row
  = ["symbol"; "Date"; "direction"; "close_values_prior_260";
     "direction_numeric"].
Proof.
  destruct (clean_data_layout Examples.to_datetime_iso Examples.raw_row
              Examples.cleaned_row) as [Hnames _]; [reflexivity |].
  exact Hnames.
Defined.

(** X2: a successful [clean_data] writes, row by row, the Date as the
    %Y-%m-%d text of the timestamp [to_datetime] gives (a missing value
    when it gives none) and the label as 0 for "DOWN", 1 for "STAY" and 2
    for "UP"; both columns keep the number of rows. *)
Theorem clean_data_rows
        (to_datetime : cell -> option date) (df df' : DataFrame)
        (date direction : Series) :
  clean_data to_datetime df = Ok df' ->
  getitem df "Date" = Ok date ->
  getitem df "direction" = Ok direction ->
  getitem df' "Date"
  = Ok (map (fun c => match to_datetime c with
                      | Some d => CStr (strftime_Ymd d)
                      | None => CNA
                      end) date)
  /\ exists codes,
      getitem df' "direction_numeric" = Ok codes
      /\ Forall2 (fun d c =>
                    (d = CStr "DOWN" /\ c = CInt 0)
                    \/ (d = CStr "STAY" /\ c = CInt 1)
                    \/ (d = CStr "UP" /\ c = CInt 2))
                 direction codes.
Proof.
  intros Hc Hdate Hdir.
  rewrite (clean_data_with_date to_datetime df date Hdate), Hdir in Hc.
  simpl in Hc.
  destruct (mapM direction_code direction) as [codes | e] eqn:Hm; simpl in Hc;
    [| discriminate].
  injection Hc as <-. split.
  - rewrite getitem_setitem_ne by discriminate. rewrite getitem_setitem_eq.
    f_equal. rewrite map_map. apply map_ext. intros c.
    unfold to_datetime_coerce. destruct (to_datetime c); reflexivity.
  - exists codes. split; [apply getitem_setitem_eq |].
    apply apply_direction_code_Ok, Hm.
Qed.

Lemma clean_data_rows_witness :
  getitem Examples.cleaned_row "Date" = Ok [CStr "2010-01-04"]
  /\ getitem Examples.cleaned_row "direction_numeric" = Ok [CInt 2].
Proof.
  destruct (clean_data_rows Examples.to_datetime_iso Examples.raw_row
              Examples.cleaned_row [CDate (Date 2010 1 4)] [CStr "UP"])
    as [Hd (codes & Hc & _)]; [reflexivity | reflexivity | reflexivity |].
  split; [exact Hd | reflexivity].
Defined.

(** ** Dates as text *)

Lemma reads_back4_all (n : nat) : (n < 100 * 100)%nat -> reads_back4 n = true.
Proof.
  assert (H : forallb reads_back4 (seq 0 (100 * 100)) = true)
    by (vm_compute; reflexivity).
  intros Hn. eapply forallb_forall in H; [exact H |]. apply in_seq. lia.
Qed.

Lemma reads_back2_all (n : nat) : (n < 100)%nat -> reads_back2 n = true.
Proof.
  assert (H : forallb reads_back2 (seq 0 100) = true) by (vm_compute; reflexivity).
  intros Hn. eapply forallb_forall in H; [exact H |]. apply in_seq. lia.
Qed.

(** X3: the text [clean_data] writes for a date reads back as that date:
    parsing the %Y-%m-%d text of a date with a year of at most four digits
    and month and day of at most two gives the date again. *)
Theorem strftime_parse_roundtrip (d : date) :
  0 <= year d <= 9999 -> 0 <= month d <= 99 -> 0 <= day d <= 99 ->
  parse_date (strftime_Ymd d) = Some d.
Proof.
  intros Hy Hm Hd. destruct d as [y m dd]. simpl in Hy, Hm, Hd.
  pose proof (reads_back4_all (Z.to_nat y) ltac:(lia)) as Ry.
  pose proof (reads_back2_all (Z.to_nat m) ltac:(lia)) as Rm.
  pose proof (reads_back2_all (Z.to_nat dd) ltac:(lia)) as Rd.
  unfold reads_back4 in Ry. unfold reads_back2 in Rm, Rd.
  unfold strftime_Ymd. cbn [year month day].
  destruct (list_ascii_of_string (zfill 4 (Z.to_nat y)))
    as [| y1 [| y2 [| y3 [| y4 [| ? ?]]]]] eqn:Ey; try discriminate.
  destruct (list_ascii_of_string (zfill 2 (Z.to_nat m)))
    as [| m1 [| m2 [| ? ?]]] eqn:Em; try discriminate.
  destruct (list_ascii_of_string (zfill 2 (Z.to_nat dd)))
    as [| d1 [| d2 [| ? ?]]] eqn:Ed; try discriminate.
  apply (f_equal string_of_list_ascii) in Ey, Em, Ed.
  rewrite string_of_list_ascii_of_string in Ey, Em, Ed.
  rewrite Ey, Em, Ed. unfold parse_date. simpl.
  destruct (digit y1) as [a1 |], (digit y2) as [a2 |], (digit y3) as [a3 |],
    (digit y4) as [a4 |]; try discriminate.
  destruct (digit m1) as [b1 |], (digit m2) as [b2 |]; try discriminate.
  destruct (digit d1) as [c1 |], (digit d2) as [c2 |]; try discriminate.
  apply Z.eqb_eq in Ry, Rm, Rd. simpl. f_equal. f_equal; lia.
Qed.

Lemma strftime_parse_roundtrip_witness :
  parse_date (strftime_Ymd (Date 2010 7 1)) = Some (Date 2010 7 1).
Proof.
  apply (strftime_parse_roundtrip (Date 2010 7 1)); simpl; lia.
Defined.

(** ** [create_features]: when it returns and when it raises *)

Lemma mapM_result_Ok {A B : Type} (f : A -> result B) (l : list A) :
  Forall (fun x => exists y, f x = Ok y) l -> exists r, mapM f l = Ok r.
Proof.
  induction 1 as [| x l [y Hy] _ [r Hr]]; simpl.
  - exists []. reflexivity.
  - exists (y :: r). rewrite Hy. simpl. rewrite Hr. reflexivity.
Qed.

Lemma mapM_result_Forall2 {A B : Type} (f : A -> result B) (l : list A)
      (r : list B) :
  mapM f l = Ok r -> Forall2 (fun x y => f x = Ok y) l r.
Proof.
  revert r. induction l as [| x l IH]; simpl; intros r H.
  - injection H as <-. constructor.
  - destruct (f x) as [y | e] eqn:Ef; simpl in H; [| discriminate].
    destruct (mapM f l) as [ys | e]; simpl in H; [| discriminate].
    injection H as <-. constructor; [exact Ef | apply IH; reflexivity].
Qed.

Lemma frame_width_ge (rows : list (list cell)) (row : list cell) :
  row ∈ rows -> (length row <= frame_width rows)%nat.
Proof.
  unfold frame_width. induction 1 as [row rows | row' row rows _ IH]; simpl; lia.
Qed.

Lemma frame_width_le (rows : list (list cell)) (n : nat) :
  Forall (fun row => (length row <= n)%nat) rows -> (frame_width rows <= n)%nat.
Proof.
  unfold frame_width. induction 1 as [| row rows Hr _ IH]; simpl; lia.
Qed.

Lemma length_expand (s : Series) :
  length (expand s) = frame_width (map pd_Series s).
Proof. unfold expand. rewrite length_map, length_seq. reflexivity. Qed.

Lemma expand_rows (s col : Series) :
  col ∈ expand s -> length col = length s.
Proof.
  unfold expand. intros Hin. apply list_elem_of_fmap in Hin as (j & -> & _).
  rewrite !length_map. reflexivity.
Qed.

(** Over rows that are lists of floats of one length, every cell of the
    expanded frame is a float. *)
Lemma expand_full_floats (s col : Series) (c : cell) :
  Forall full_history s -> col ∈ expand s -> c ∈ col -> exists x, c = CFloat x.
Proof.
  unfold expand. intros Hfull Hcol Hc.
  apply list_elem_of_fmap in Hcol as (j & -> & Hj).
  apply elem_of_seq in Hj as [_ Hj]. simpl in Hj.
  apply list_elem_of_fmap in Hc as (row & -> & Hrow).
  apply list_elem_of_fmap in Hrow as (h & -> & Hh).
  rewrite Forall_forall in Hfull. destruct (Hfull h Hh) as (l & -> & Hl).
  assert (Hw : (frame_width (map pd_Series s) <= 260)%nat).
  { apply frame_width_le. rewrite Forall_forall. intros row Hrow.
    apply list_elem_of_fmap in Hrow as (h' & -> & Hh').
    destruct (Hfull h' Hh') as (l' & -> & Hl'). simpl.
    rewrite length_map. lia. }
  simpl. destruct (nth_in_or_default j (map CFloat l) CNA) as [Hin | Hdef].
  - apply list_elem_of_In, list_elem_of_fmap in Hin as (x & -> & _). eauto.
  - exfalso.
    assert (Hlt : (j < length (map CFloat l))%nat) by (rewrite length_map; lia).
    apply (nth_In _ CNA) in Hlt. rewrite Hdef in Hlt.
    apply list_elem_of_In, list_elem_of_fmap in Hlt as (x & Hx & _). discriminate.
Qed.

Section FeaturesExtra.

Variables (mean std : list float64 -> float64).
Variables (fsub fdiv : float64 -> float64 -> float64).
Variable of_int : Z -> float64.

Local Abbreviation scale_column := (scale_column mean std fsub fdiv of_int).
Local Abbreviation _scale_features := (_scale_features mean std fsub fdiv of_int).
Local Abbreviation create_features := (create_features mean std fsub fdiv of_int).

Lemma scale_column_rows (col s : Series) :
  scale_column col = Ok s -> length s = length col.
Proof.
  unfold TimeSeries.scale_column.
  destruct (mapM (to_float of_int) col) as [xs | e] eqn:Hx; simpl; [| discriminate].
  intros [= <-]. rewrite length_map.
  apply mapM_result_Forall2, Forall2_length in Hx. congruence.
Qed.

Lemma scale_column_floats (col : Series) :
  (forall c, c ∈ col -> exists x, c = CFloat x) ->
  exists s, scale_column col = Ok s.
Proof.
  intros Hf. unfold TimeSeries.scale_column.
  destruct (mapM_result_Ok (to_float of_int) col) as [xs Hx].
  - rewrite Forall_forall. intros c Hc. destruct (Hf c Hc) as [x ->].
    exists x. reflexivity.
  - rewrite Hx. simpl. eauto.
Qed.

Lemma scale_features_zip (names : list string) (cols scaled : list Series) :
  mapM scale_column cols = Ok scaled ->
  _scale_features (zip names cols) = Ok (zip names scaled).
Proof.
  unfold TimeSeries._scale_features.
  revert names scaled. induction cols as [| col cols IH]; intros names scaled H.
  - simpl in H. injection H as <-. destruct names; reflexivity.
  - simpl in H.
    destruct (scale_column col) as [s | e] eqn:Hs; simpl in H; [| discriminate].
    destruct (mapM scale_column cols) as [ss | e] eqn:Hss; simpl in H;
      [| discriminate].
    injection H as <-. destruct names as [| n names]; [reflexivity |].
    simpl. rewrite Hs. simpl. rewrite (IH names ss eq_refl). reflexivity.
Qed.

Lemma getitem_app_r (df1 df2 : DataFrame) (name : string) :
  name ∉ column_names df1 -> getitem (df1 ++ df2)%list name = getitem df2 name.
Proof.
  unfold column_names. induction df1 as [| [n s] df1 IH]; simpl; intros Hn.
  - reflexivity.
  - apply not_elem_of_cons in Hn as [Hne Hn].
    destruct (String.eqb_spec n name) as [-> | _]; [contradiction |].
    apply IH, Hn.
Qed.

Lemma getitem_Ok_elem_of_pair (df : DataFrame) (name : string) (s : Series) :
  getitem df name = Ok s -> (name, s) ∈ df.
Proof.
  induction df as [| [n s0] df IH]; simpl; [discriminate |].
  destruct (String.eqb_spec n name) as [-> | Hne].
  - intros [= ->]. left.
  - intros H. right. apply IH, H.
Qed.

Lemma LABEL_not_day : LABEL ∉ COL_NAMES.
Proof. apply (bool_decide_unpack _). vm_compute. exact I. Qed.

(** The full case, in one place: rows that are lists of 260 floats. *)
Lemma create_features_full
      (df : DataFrame) (label_name : string) (history label_column : Series) :
  getitem df STOCK_HISTORY_COLUMN = Ok history ->
  history <> [] ->
  Forall full_history history ->
  getitem df LABEL = Ok label_column ->
  exists scaled,
    mapM scale_column (expand history) = Ok scaled
    /\ length scaled = 260%nat
    /\ create_features df label_name
       = Ok (zip COL_NAMES scaled ++ [(LABEL, label_column)])%list.
Proof.
  intros Hh Hne Hfull Hl.
  assert (Hw : frame_width (map pd_Series history) = 260%nat).
  { apply Nat.le_antisymm.
    - apply frame_width_le. rewrite Forall_forall. intros row Hrow.
      apply list_elem_of_fmap in Hrow as (h & -> & Hin).
      rewrite Forall_forall in Hfull. destruct (Hfull h Hin) as (l & -> & Hlen).
      simpl. rewrite length_map. lia.
    - destruct history as [| h history]; [contradiction |].
      apply Forall_cons in Hfull as [(l & -> & Hlen) _].
      etransitivity; [| apply (frame_width_ge _ (pd_Series (CList l))); left].
      simpl. rewrite length_map. lia. }
  destruct (mapM_result_Ok scale_column (expand history)) as [scaled Hs].
  { rewrite Forall_forall. intros col Hcol. apply scale_column_floats.
    intros c Hc. eapply expand_full_floats; eassumption. }
  exists scaled. split; [exact Hs |]. split.
  { apply mapM_result_Forall2, Forall2_length in Hs.
    rewrite <- Hs, length_expand. exact Hw. }
  unfold TimeSeries.create_features. rewrite Hh. cbn [mbind result_bind].
  destruct history as [| h history]; [contradiction |].
  unfold set_columns. rewrite length_expand, Hw.
  change (Nat.eqb 260 (length COL_NAMES)) with true.
  cbn [mbind result_bind].
  rewrite (scale_features_zip _ _ _ Hs). cbn [mbind result_bind].
  rewrite Hl. reflexivity.
Qed.

(** X4: on a frame with at least one row whose close_values_prior_260
    values are all lists of 260 floats and which has the column
    direction_numeric, [create_features] returns: the result has the columns
    day_0 to day_259 and direction_numeric, each day column has one value
    per row of the input, and the label column is the one of the input. *)
Theorem create_features_returns
        (df : DataFrame) (label_name : string) (history label_column : Series) :
  getitem df STOCK_HISTORY_COLUMN = Ok history ->
  history <> [] ->
  Forall full_history history ->
  getitem df LABEL = Ok label_column ->
  exists r,
    create_features df label_name = Ok r
    /\ column_names r = (COL_NAMES ++ [LABEL])%list
    /\ getitem r LABEL = Ok label_column
    /\ forall day col,
        day ∈ COL_NAMES -> getitem r day = Ok col -> length col = length history.
Proof.
  intros Hh Hne Hfull Hl.
  destruct (create_features_full df label_name history label_column
              Hh Hne Hfull Hl) as (scaled & Hs & Hlen & Hr).
  eexists. split; [exact Hr |].
  assert (Hnames : column_names (zip COL_NAMES scaled) = COL_NAMES).
  { apply fst_zip. rewrite Hlen. reflexivity. }
  split; [| split].
  - unfold column_names in *. rewrite map_app, Hnames. reflexivity.
  - rewrite getitem_app_r by (rewrite Hnames; apply LABEL_not_day).
    simpl. reflexivity.
  - intros day col Hday Hcol.
    assert (Hin : col ∈ scaled).
    { apply getitem_Ok_elem_of_pair, elem_of_app in Hcol as [Hz | Hlast].
      - eapply elem_of_zip_r, Hz.
      - apply list_elem_of_singleton in Hlast. injection Hlast as -> _.
        exfalso. apply LABEL_not_day, Hday. }
    apply mapM_result_Forall2 in Hs.
    apply list_elem_of_lookup in Hin as [i Hi].
    destruct (Forall2_lookup_r _ _ _ _ _ Hs Hi) as (raw & Hraw & Hsc).
    rewrite (scale_column_rows _ _ Hsc).
    apply expand_rows. eapply list_elem_of_lookup_2, Hraw.
Qed.

End FeaturesExtra.

Lemma create_features_returns_witness :
  exists r,
    create_features Examples.mean0 Examples.std0 Examples.fsub0 Examples.fdiv0
      Examples.of_int0 Examples.cleaned_row "direction_numeric" = Ok r
    /\ getitem r LABEL = Ok [CInt 2].
Proof.
  destruct (create_features_returns Examples.mean0 Examples.std0 Examples.fsub0
              Examples.fdiv0 Examples.of_int0 Examples.cleaned_row
              "direction_numeric" [Examples.history] [CInt 2])
    as (r & Hr & _ & Hl & _).
  - reflexivity.
  - discriminate.
  - constructor; [| constructor].
    exists (repeat (Finite 3 0) 260). split; reflexivity.
  - reflexivity.
  - exists r. split; assumption.
Defined.

Section FeaturesErrors.

Variables (mean std : list float64 -> float64).
Variables (fsub fdiv : float64 -> float64 -> float64).
Variable of_int : Z -> float64.

Local Abbreviation _scale_features := (_scale_features mean std fsub fdiv of_int).
Local Abbreviation create_features := (create_features mean std fsub fdiv of_int).

(** X5: [create_features] raises ValueError, whether or not the label
    column exists, when some row's list of close values is longer than 260,
    and when the frame has rows and every row's list is shorter than
    260: the expanded frame then has not 260 columns to rename. *)
Theorem create_features_wrong_length
        (df : DataFrame) (label_name : string) (history : Series) :
  getitem df STOCK_HISTORY_COLUMN = Ok history ->
  (exists l, CList l ∈ history /\ (260 < length l)%nat)
  \/ (history <> []
      /\ Forall (fun c => exists l, c = CList l /\ (length l < 260)%nat) history) ->
  create_features df label_name = Raise ValueError.
Proof.
  intros Hh Hlen.
  assert (Hne : history <> []).
  { destruct Hlen as [(l & Hin & _) | [Hne _]]; [| exact Hne].
    intros ->. inversion Hin. }
  assert (Hw : frame_width (map pd_Series history) <> 260%nat).
  { destruct Hlen as [(l & Hin & Hl) | [_ Hall]].
    - assert (Hge := frame_width_ge (map pd_Series history) (pd_Series (CList l))).
      simpl in Hge. rewrite length_map in Hge.
      specialize (Hge (list_elem_of_fmap_2 pd_Series _ _ Hin)). lia.
    - assert (Hle : (frame_width (map pd_Series history) <= 259)%nat); [| lia].
      apply frame_width_le. rewrite Forall_forall. intros row Hrow.
      apply list_elem_of_fmap in Hrow as (h & -> & Hin).
      rewrite Forall_forall in Hall. destruct (Hall h Hin) as (l & -> & Hl).
      simpl. rewrite length_map. lia. }
  unfold TimeSeries.create_features. rewrite Hh. cbn [mbind result_bind].
  destruct history as [| h history]; [contradiction |].
  unfold set_columns. rewrite length_expand.
  change (length COL_NAMES) with 260%nat.
  apply Nat.eqb_neq in Hw. rewrite Hw. reflexivity.
Qed.

End FeaturesErrors.

Lemma create_features_wrong_length_witness :
  create_features Examples.mean0 Examples.std0 Examples.fsub0 Examples.fdiv0
    Examples.of_int0 Examples.raw_with_missing "direction_numeric"
  = Raise ValueError.
Proof.
  apply (create_features_wrong_length Examples.mean0 Examples.std0
           Examples.fsub0 Examples.fdiv0 Examples.of_int0
           Examples.raw_with_missing "direction_numeric"
           [CList [Finite 3 0; PosInf]]).
  - reflexivity.
  - right. split; [discriminate |]. constructor; [| constructor].
    exists [Finite 3 0; PosInf]. split; [reflexivity | simpl; lia].
Defined.

(** ** The steps of the export loop *)

Lemma create_query_clause (phase : string) :
  create_query phase = Ok (basequery +:+ split_clause phase).
Proof. unfold create_query. rewrite create_split_clause. reflexivity. Qed.

Lemma apply_direction_code_valid (direction : Series) :
  Forall valid_direction direction ->
  exists codes, mapM direction_code direction = Ok codes.
Proof.
  intros H. apply mapM_result_Ok. eapply Forall_impl; [exact H |].
  intros c Hc. destruct (direction_code_valid c Hc) as [n Hn]. eauto.
Qed.

Lemma ensure_data_dir_id (fs : gmap string node) :
  is_Some (fs !! "../data") -> ensure_data_dir fs = fs.
Proof. intros [n Hn]. unfold ensure_data_dir. rewrite Hn. reflexivity. Qed.

Section PipelineFacts.

Variable to_datetime : cell -> option date.
Variables (mean std : list float64 -> float64).
Variables (fsub fdiv : float64 -> float64 -> float64).
Variable of_int : Z -> float64.
Variable run_query : string -> DataFrame.

Local Abbreviation prepare :=
  (prepare to_datetime mean std fsub fdiv of_int run_query).
Local Abbreviation export_phase :=
  (export_phase to_datetime mean std fsub fdiv of_int run_query).
Local Abbreviation export_loop :=
  (export_loop to_datetime mean std fsub fdiv of_int run_query).
Local Abbreviation export_cell :=
  (export_cell to_datetime mean std fsub fdiv of_int run_query).

(** X7: the steps of the export loop fit together.  When the rows the
    query returns have a Date column, only "DOWN", "STAY" and "UP" in the
    direction column and lists of 260 floats in close_values_prior_260, and
    there is at least one row, then cleaning followed by feature creation
    returns: the label column [create_features] looks up is the one
    [clean_data] has just added, and the frame has the columns day_0 to
    day_259 and direction_numeric. *)
Theorem prepare_returns
        (phase : string) (date direction history : Series) :
  let df := run_query (basequery +:+ split_clause phase) in
  getitem df "Date" = Ok date ->
  getitem df "direction" = Ok direction ->
  Forall valid_direction direction ->
  getitem df STOCK_HISTORY_COLUMN = Ok history ->
  history <> [] ->
  Forall full_history history ->
  exists r codes,
    prepare phase = Ok r
    /\ column_names r = (COL_NAMES ++ [LABEL])%list
    /\ mapM direction_code direction = Ok codes
    /\ getitem r LABEL = Ok codes.
Proof.
  intros df Hdate Hdir Hvalid Hh Hne Hfull.
  destruct (apply_direction_code_valid direction Hvalid) as [codes Hcodes].
  assert (Hclean : exists df',
             clean_data to_datetime df = Ok df'
             /\ getitem df' STOCK_HISTORY_COLUMN = Ok history
             /\ getitem df' LABEL = Ok codes).
  { eexists. rewrite (clean_data_with_date to_datetime df date Hdate), Hdir.
    cbn [mbind result_bind]. rewrite Hcodes. cbn [mbind result_bind].
    split; [reflexivity |]. split.
    - rewrite !getitem_setitem_ne by discriminate. exact Hh.
    - apply getitem_setitem_eq. }
  destruct Hclean as (df' & Hclean & Hh' & Hl').
  destruct (create_features_full mean std fsub fdiv of_int df'
              "direction_numeric" history codes Hh' Hne Hfull Hl')
    as (scaled & _ & Hlen & Hr).
  assert (Hnames : column_names (zip COL_NAMES scaled) = COL_NAMES)
    by (apply fst_zip; rewrite Hlen; reflexivity).
  eexists _, codes. unfold TimeSeries.prepare.
  rewrite create_query_clause. cbn [mbind result_bind].
  fold df. rewrite Hclean. cbn [mbind result_bind].
  split; [exact Hr |]. split; [| split; [exact Hcodes |]].
  - unfold column_names in *. rewrite map_app, Hnames. reflexivity.
  - rewrite getitem_app_r by (rewrite Hnames; apply LABEL_not_day).
    reflexivity.
Qed.

End PipelineFacts.

Lemma prepare_returns_witness :
  exists r,
    prepare Examples.to_datetime_iso Examples.mean0 Examples.std0
      Examples.fsub0 Examples.fdiv0 Examples.of_int0 Examples.one_row_service
      "VALID" = Ok r
    /\ getitem r LABEL = Ok [CInt 2].
Proof.
  destruct (prepare_returns Examples.to_datetime_iso Examples.mean0
              Examples.std0 Examples.fsub0 Examples.fdiv0 Examples.of_int0
              Examples.one_row_service "VALID" [CDate (Date 2010 1 4)]
              [CStr "UP"] [Examples.history])
    as (r & codes & Hr & _ & Hcodes & Hl).
  - reflexivity.
  - reflexivity.
  - constructor; [| constructor]. right; right; reflexivity.
  - reflexivity.
  - discriminate.
  - constructor; [| constructor].
    exists (repeat (Finite 3 0) 260). split; reflexivity.
  - exists r. split; [exact Hr |]. rewrite Hl. symmetry. exact Hcodes.
Defined.

(** ** The export loop: where it stops and what it leaves alone *)

Section ExportExtras.

Variable to_datetime : cell -> option date.
Variables (mean std : list float64 -> float64).
Variables (fsub fdiv : float64 -> float64 -> float64).
Variable of_int : Z -> float64.
Variable run_query : string -> DataFrame.

Local Abbreviation prepare :=
  (prepare to_datetime mean std fsub fdiv of_int run_query).
Local Abbreviation export_phase :=
  (export_phase to_datetime mean std fsub fdiv of_int run_query).
Local Abbreviation export_loop :=
  (export_loop to_datetime mean std fsub fdiv of_int run_query).
Local Abbreviation export_cell :=
  (export_cell to_datetime mean std fsub fdiv of_int run_query).
Local Abbreviation export_phase_cases :=
  (export_phase_cases to_datetime mean std fsub fdiv of_int run_query).
Local Abbreviation export_phase_writes :=
  (export_phase_writes to_datetime mean std fsub fdiv of_int run_query).
Local Abbreviation export_loop_app :=
  (export_loop_app to_datetime mean std fsub fdiv of_int run_query).

(** The loop touches only ../data and the files of its phases, and keeps
    a node that is at ../data. *)
Lemma export_loop_untouched (phases : list string) (fs : gmap string node)
      (path : string) :
  (path <> "../data" -> path ∉ map csv_path phases ->
   fst (export_loop phases fs) !! path = fs !! path)
  /\ (forall n, fs !! "../data" = Some n ->
                fst (export_loop phases fs) !! "../data" = Some n).
Proof.
  revert fs. induction phases as [| phase phases IH]; intros fs.
  - split; auto.
  - cbn [TimeSeries.export_loop map].
    destruct (export_phase_cases fs phase) as [[e He] | [[e He] | [df He]]];
      rewrite He; cbn [fst].
    + split; auto.
    + split.
      * intros Hdir _. apply lookup_ensure_data_dir_ne, Hdir.
      * intros n Hn. unfold ensure_data_dir. rewrite Hn. exact Hn.
    + destruct (IH (<[csv_path phase := CsvFile df]> (ensure_data_dir fs)))
        as [IHpath IHdir].
      split.
      * intros Hdir Hnot. apply not_elem_of_cons in Hnot as [Hne Hnot].
        rewrite IHpath by assumption.
        rewrite lookup_insert_ne by congruence.
        apply lookup_ensure_data_dir_ne, Hdir.
      * intros n Hn. apply IHdir.
        rewrite lookup_insert_ne by apply csv_path_not_dir.
        unfold ensure_data_dir. rewrite Hn. exact Hn.
Qed.

(** A CSV file stays a CSV file, whatever the loop writes. *)
Lemma export_loop_keeps_files (phases : list string) (fs : gmap string node)
      (path : string) :
  path <> "../data" ->
  (exists df, fs !! path = Some (CsvFile df)) ->
  exists df, fst (export_loop phases fs) !! path = Some (CsvFile df).
Proof.
  intros Hdir. revert fs.
  induction phases as [| phase phases IH]; intros fs Hfile.
  - exact Hfile.
  - cbn [TimeSeries.export_loop].
    destruct (export_phase_cases fs phase) as [[e He] | [[e He] | [df He]]];
      rewrite He; cbn [fst].
    + exact Hfile.
    + rewrite lookup_ensure_data_dir_ne by exact Hdir. exact Hfile.
    + apply IH. destruct (decide (csv_path phase = path)) as [<- | Hne].
      * exists df. apply lookup_insert_eq.
      * rewrite lookup_insert_ne by exact Hne.
        rewrite lookup_ensure_data_dir_ne by exact Hdir. exact Hfile.
Qed.

(** Phases whose frames can be prepared and whose files can be written
    all write. *)
Lemma export_loop_writes (phases : list string) (fs : gmap string node) :
  Forall (fun p => exists df, prepare p = Ok df) phases ->
  fs !! "../data" = None \/ fs !! "../data" = Some Directory ->
  Forall (fun p => fs !! csv_path p <> Some Directory) phases ->
  snd (export_loop phases fs) = None
  /\ Forall (fun p => exists df,
               fst (export_loop phases fs) !! csv_path p = Some (CsvFile df))
            phases.
Proof.
  intros Hprep. revert fs.
  induction Hprep as [| p ps [df Hp] _ IH]; intros fs Hd Hfree.
  - split; [reflexivity | constructor].
  - apply Forall_cons in Hfree as [Hp_free Hps_free].
    cbn [TimeSeries.export_loop].
    rewrite (export_phase_writes fs p df Hp Hd Hp_free).
    destruct (IH (<[csv_path p := CsvFile df]> (ensure_data_dir fs)))
      as [IHend IHfiles].
    + right. rewrite lookup_insert_ne by apply csv_path_not_dir.
      apply lookup_ensure_data_dir, Hd.
    + eapply Forall_impl; [exact Hps_free |]. intros q Hq. simpl in Hq.
      destruct (decide (csv_path p = csv_path q)) as [Heq | Hne].
      * rewrite <- Heq, lookup_insert_eq. discriminate.
      * rewrite lookup_insert_ne by exact Hne.
        rewrite lookup_ensure_data_dir_ne by apply csv_path_not_dir.
        exact Hq.
    + split; [exact IHend |]. constructor; [| exact IHfiles].
      apply export_loop_keeps_files; [apply csv_path_not_dir |].
      exists df. apply lookup_insert_eq.
Qed.


(** A phase that has failed fails again, in the same way, on the file
    system it left. *)
Lemma export_phase_fails_again (fs fs' : gmap string node) (phase : string)
      (e : failure) :
  export_phase fs phase = (fs', Some e) ->
  export_phase fs' phase = (fs', Some e).
Proof.
  unfold TimeSeries.export_phase, to_csv.
  destruct (prepare phase) as [df | e0]; [| intros [= <- <-]; reflexivity].
  destruct (fs !! "../data") as [[| df0] |] eqn:Hd.
  - rewrite (ensure_data_dir_made fs Hd), Hd.
    destruct (fs !! csv_path phase) as [[| df1] |] eqn:Hf;
      intros [= <- <-] || discriminate.
    rewrite (ensure_data_dir_made fs Hd), Hd, Hf. reflexivity.
  - unfold ensure_data_dir. rewrite Hd, Hd. intros [= <- <-].
    rewrite Hd, Hd. reflexivity.
  - assert (Hmade : ensure_data_dir fs !! "../data" = Some Directory)
      by (apply lookup_ensure_data_dir; left; exact Hd).
    rewrite Hmade.
    rewrite (lookup_ensure_data_dir_ne fs _ (csv_path_not_dir phase)).
    destruct (fs !! csv_path phase) as [[| df1] |] eqn:Hf;
      intros [= <- <-] || discriminate.
    rewrite (ensure_data_dir_made _ Hmade), Hmade.
    rewrite (lookup_ensure_data_dir_ne fs _ (csv_path_not_dir phase)), Hf.
    reflexivity.
Qed.

(** A phase that has written writes the same again where its file and
    the directory are still in place. *)
Lemma export_phase_writes_again (fs fs' : gmap string node) (phase : string)
      (df : DataFrame) :
  export_phase fs phase
  = (<[csv_path phase := CsvFile df]> (ensure_data_dir fs), None) ->
  fs' !! "../data" = Some Directory ->
  fs' !! csv_path phase = Some (CsvFile df) ->
  export_phase fs' phase = (fs', None).
Proof.
  intros Hrun Hd Hf.
  assert (Hp : prepare phase = Ok df).
  { unfold TimeSeries.export_phase in Hrun.
    destruct (prepare phase) as [df' | e]; [| discriminate].
    destruct (to_csv _ _ _) as [fs1 | e] eqn:Hcsv; [| discriminate].
    injection Hrun as Hfs.
    apply (f_equal (fun m : gmap string node => m !! csv_path phase)) in Hfs.
    rewrite lookup_insert_eq in Hfs.
    unfold to_csv in Hcsv.
    destruct (ensure_data_dir fs !! "../data") as [[| df0] |];
      [| discriminate | discriminate].
    destruct (ensure_data_dir fs !! csv_path phase) as [[| df1] |];
      [discriminate | |]; injection Hcsv as <-;
      rewrite lookup_insert_eq in Hfs; congruence. }
  rewrite (export_phase_writes fs' phase df Hp);
    [| right; exact Hd | rewrite Hf; discriminate].
  rewrite (ensure_data_dir_made fs' Hd), insert_id by exact Hf.
  reflexivity.
Qed.

(** Over phases with files of their own, a second pass of the loop ends
    as the first did and changes nothing. *)
Lemma export_loop_again (phases : list string) (fs : gmap string node) :
  NoDup (map csv_path phases) ->
  export_loop phases (fst (export_loop phases fs)) = export_loop phases fs.
Proof.
  revert fs. induction phases as [| phase phases IH]; intros fs Hdistinct.
  - reflexivity.
  - cbn [map] in Hdistinct. apply NoDup_cons in Hdistinct as [Hnew Hdistinct].
    cbn [TimeSeries.export_loop].
    destruct (export_phase_cases fs phase) as [[e He] | [[e He] | [df He]]];
      rewrite He; cbn [fst TimeSeries.export_loop].
    + rewrite (export_phase_fails_again fs fs phase e He). reflexivity.
    + rewrite (export_phase_fails_again fs _ phase e He). reflexivity.
    + set (fs1 := <[csv_path phase := CsvFile df]> (ensure_data_dir fs)) in *.
      destruct (export_loop_untouched phases fs1 (csv_path phase))
        as [Hfile Hdir].
      assert (Hmade : fs1 !! "../data" = Some Directory).
      { unfold fs1. rewrite lookup_insert_ne by apply csv_path_not_dir.
        unfold TimeSeries.export_phase in He.
        destruct (prepare phase) as [df' | e]; [| discriminate].
        unfold to_csv in He.
        destruct (ensure_data_dir fs !! "../data") as [[| df0] |];
          [reflexivity | discriminate | discriminate]. }
      rewrite (export_phase_writes_again fs _ phase df He).
      * apply IH, Hdistinct.
      * apply Hdir, Hmade.
      * rewrite Hfile by (apply csv_path_not_dir || exact Hnew).
        unfold fs1. apply lookup_insert_eq.
Qed.

(** X9: running the export cell again changes nothing, however the first
    run ended: the second run leaves the file system of the first and
    ends in the same way, without an exception or with the same one. *)
Theorem export_cell_idempotent (fs : gmap string node) :
  export_cell (fst (export_cell fs)) = export_cell fs.
Proof.
  unfold TimeSeries.export_cell. apply export_loop_again.
  apply (bool_decide_unpack _). vm_compute. exact I.
Qed.

(** X17: whatever the ASCII phases and however the loop ends, the export
    loop touches only the directory ../data and the CSV files of its
    phases: every other path holds afterwards what it held before, and a
    node that was at ../data is still there. *)
Theorem export_loop_frame
        (phases : list string) (fs : gmap string node) (path : string) :
  Forall (fun p => is_ascii p = true) phases ->
  (path <> "../data" -> path ∉ map csv_path phases ->
   fst (export_loop phases fs) !! path = fs !! path)
  /\ (forall n, fs !! "../data" = Some n ->
                fst (export_loop phases fs) !! "../data" = Some n).
Proof. intros _. apply export_loop_untouched. Qed.

End ExportExtras.


Lemma export_loop_frame_witness :
  fst (export_loop Examples.to_datetime_iso Examples.mean0 Examples.std0
         Examples.fsub0 Examples.fdiv0 Examples.of_int0
         Examples.one_row_service ["TRAIN"; "VALID"; "TEST"]
         {["notes.txt" := Directory]}) !! "notes.txt"
  = Some Directory.
Proof.
  destruct (export_loop_frame Examples.to_datetime_iso Examples.mean0
              Examples.std0 Examples.fsub0 Examples.fdiv0 Examples.of_int0
              Examples.one_row_service ["TRAIN"; "VALID"; "TEST"]
              {["notes.txt" := Directory]} "notes.txt") as [Hpath _].
  - repeat constructor.
  - rewrite Hpath.
    + reflexivity.
    + discriminate.
    + apply (bool_decide_unpack _). vm_compute. exact I.
Defined.

(** ** The plot of a few examples *)

Lemma iloc_Ok (s : Series) (ix : nat) :
  (ix < length s)%nat -> exists c, iloc s ix = Ok c /\ s !! ix = Some c.
Proof.
  intros Hlt. unfold iloc, Series in *.
  destruct (lookup_lt_is_Some_2 s ix Hlt) as [c Hc]. rewrite Hc. eauto.
Qed.

Lemma iloc_out_of_bounds (s : Series) (ix : nat) :
  (length s <= ix)%nat -> iloc s ix = Raise IndexError.
Proof.
  intros Hge. unfold iloc, Series in *.
  rewrite (lookup_ge_None_2 s ix Hge). reflexivity.
Qed.

Lemma row_iloc_Ok (df : DataFrame) (ix : nat) :
  Forall (fun col => (ix < length (snd col))%nat) df ->
  exists row,
    row_iloc df ix = Ok row
    /\ Forall2 (fun col v => fst v = fst col /\ snd col !! ix = Some (snd v))
               df row.
Proof.
  unfold row_iloc. induction 1 as [| [n s] df Hlt _ (row & Hrow & Hall)]; simpl.
  - exists []. split; [reflexivity | constructor].
  - destruct (iloc_Ok s ix Hlt) as (c & Hc & Hsc). rewrite Hc.
    cbn [mbind result_bind]. rewrite Hrow. cbn [mbind result_bind].
    exists ((n, c) :: row). split; [reflexivity |].
    constructor; [split; [reflexivity | exact Hsc] | exact Hall].
Qed.

Section PlotFacts.

Variables (df_features sel : DataFrame) (label : Series) (n : nat).
Hypothesis Hlabel : getitem df_features "direction_numeric" = Ok label.
Hypothesis Hsel : getitems df_features COL_NAMES = Ok sel.
Hypothesis Hrows : length label = n.
Hypothesis Hshape : Forall (fun col => length (snd col) = n) sel.

Local Abbreviation line_of_row := (line_of_row sel label).

Lemma example_line_Ok (ix : nat) :
  (ix < n)%nat -> exists ln, example_line df_features ix = Ok ln /\ line_of_row ix ln.
Proof.
  intros Hlt. unfold example_line. rewrite Hlabel, Hsel.
  cbn [mbind result_bind].
  destruct (iloc_Ok label ix) as (c & Hc & Hlc); [lia |]. rewrite Hc.
  cbn [mbind result_bind].
  destruct (row_iloc_Ok sel ix) as (row & Hrow & Hall).
  { eapply Forall_impl; [exact Hshape |]. intros col Hcol. simpl in Hcol. lia. }
  rewrite Hrow. cbn [mbind result_bind].
  eexists. split; [reflexivity |]. split; assumption.
Qed.

Lemma example_line_out_of_bounds (ix : nat) :
  (n <= ix)%nat -> example_line df_features ix = Raise IndexError.
Proof.
  intros Hge. unfold example_line. rewrite Hlabel. cbn [mbind result_bind].
  rewrite iloc_out_of_bounds by lia. reflexivity.
Qed.

(** X11: on a frame of features with [n] rows, the cell that plots the
    rows 0, 1, 9 and 5 ends without an exception exactly when there are at
    least ten rows, and then has drawn those four rows in that order, each
    under its label; with fewer rows it raises IndexError after drawing
    the rows 0 and 1 that exist. *)
Theorem plot_cell_needs_ten_rows :
  ((10 <= n)%nat ->
   snd (plot_cell df_features) = None
   /\ Forall2 line_of_row [0; 1; 9; 5]%nat (fst (plot_cell df_features)))
  /\ ((n < 10)%nat ->
      snd (plot_cell df_features) = Some IndexError
      /\ length (fst (plot_cell df_features)) = Nat.min n 2
      /\ Forall2 line_of_row (seq 0 (Nat.min n 2)) (fst (plot_cell df_features))).
Proof.
  unfold plot_cell, ix_to_plot. split; intros Hn.
  - destruct (example_line_Ok 0) as (l0 & E0 & H0); [lia |].
    destruct (example_line_Ok 1) as (l1 & E1 & H1); [lia |].
    destruct (example_line_Ok 9) as (l9 & E9 & H9); [lia |].
    destruct (example_line_Ok 5) as (l5 & E5 & H5); [lia |].
    simpl. rewrite E0, E1, E9, E5. simpl.
    split; [reflexivity |]. repeat (constructor; [assumption |]). constructor.
  - assert (Hcases : n = 0%nat \/ n = 1%nat \/ (2 <= n)%nat) by lia.
    destruct Hcases as [Hz | [Ho | Ht]].
    + replace (Nat.min n 2) with 0%nat by lia.
      simpl. rewrite (example_line_out_of_bounds 0) by lia.
      repeat split. constructor.
    + replace (Nat.min n 2) with 1%nat by lia.
      destruct (example_line_Ok 0) as (l0 & E0 & H0); [lia |].
      simpl. rewrite E0, (example_line_out_of_bounds 1) by lia.
      repeat split. repeat (constructor; [assumption |]). constructor.
    + replace (Nat.min n 2) with 2%nat by lia.
      destruct (example_line_Ok 0) as (l0 & E0 & H0); [lia |].
      destruct (example_line_Ok 1) as (l1 & E1 & H1); [lia |].
      simpl. rewrite E0, E1, (example_line_out_of_bounds 9) by lia.
      repeat split. repeat (constructor; [assumption |]). constructor.
Qed.

End PlotFacts.

Lemma plot_cell_needs_ten_rows_witness :
  snd (plot_cell MoreExamples.twelve_rows) = None
  /\ length (fst (plot_cell MoreExamples.twelve_rows)) = 4%nat.
Proof.
  assert (Hshape : Forall (fun col : string * Series => length (snd col) = 12%nat)
                          MoreExamples.twelve_days).
  { apply Forall_forall. intros [name col] Hin.
    apply elem_of_zip_r, list_elem_of_In, repeat_spec in Hin. subst col.
    reflexivity. }
  destruct (plot_cell_needs_ten_rows MoreExamples.twelve_rows
              MoreExamples.twelve_days MoreExamples.twelve_labels 12
              ltac:(vm_compute; reflexivity) ltac:(vm_compute; reflexivity)
              eq_refl Hshape) as [Hten _].
  destruct (Hten ltac:(lia)) as [Hnone Hlines].
  split; [exact Hnone |]. apply Forall2_length in Hlines. symmetry. exact Hlines.
Defined.

(** ** Looking at a figure after training *)

Section FigureFacts.

Import DCGAN.

Context {tensor variables gradients adam rng : Type}.
Variable random_normal : rng -> tensor * rng.
Variable generator_train : variables -> tensor -> tensor * variables.
Variable discriminator_train : variables -> tensor -> tensor * variables.
Variable generator_predict : variables -> tensor -> tensor.
Variable generator_loss : tensor -> tensor.
Variable discriminator_loss : tensor -> tensor -> tensor.
Variable tape_gradient : tensor -> (variables -> tensor) -> variables -> gradients.
Variable apply_gradients : adam -> gradients -> variables -> adam * variables.
Variable examples : tensor -> nat.

Local Abbreviation session := (session tensor variables gradients adam rng).
Local Abbreviation blank := (generator_of_noise generator_train discriminator_train).
Local Abbreviation train_batches :=
  (train_batches random_normal generator_train discriminator_train
     generator_loss discriminator_loss tape_gradient apply_gradients blank).
Local Abbreviation train :=
  (train random_normal generator_train discriminator_train generator_predict
     generator_loss discriminator_loss tape_gradient apply_gradients examples
     blank).

(** X14: on a disk where ./gan_images is a directory that holds no
    figure yet (and the seed has at most 16 examples, and no file is in
    the place of the checkpoint directory), after [train(dataset, epochs)]
    the call [display_image(epoch_no)] opens a figure exactly for the
    numbers 1 to [epochs], and for [epochs] itself even when it is 0: the
    figure of the generator as trained up to that epoch.  For every other
    number it raises FileNotFoundError. *)
Theorem display_image_after_train
        (dataset : list tensor) (seed : tensor) (epochs epoch_no : nat)
        (s : session) :
  (forall g, (examples (generator_predict g seed) <= 16)%nat) ->
  disk s !! images_dir = Some Folder ->
  (forall e, disk s !! image_path e = None) ->
  (forall p, disk s !! checkpoint_dir <> Some (Figure p)) ->
  display_image (disk (fst (train dataset seed epochs s))) epoch_no
  = if decide ((1 <= epoch_no <= epochs)%nat \/ epoch_no = epochs)
    then Os.Returned
           (generator_predict
              (generator
                 (names (train_batches (concat (replicate epoch_no dataset)) s)))
              seed)
    else Os.Failed Os.FileNotFoundError.
Proof.
  intros Hex Hdir Hfresh Hckpt.
  assert (Hfig : forall e, disk s !! image_path e <> Some Folder)
    by (intros e; rewrite Hfresh; discriminate).
  destruct (train_runs random_normal generator_train discriminator_train
              generator_predict generator_loss discriminator_loss
              tape_gradient apply_gradients examples dataset seed s
              Hex Hdir Hfig Hckpt epochs)
    as (s' & Hrun & _ & _ & _ & Hfigs & Hframe & _).
  rewrite Hrun. cbn [fst]. unfold display_image.
  destruct (decide ((1 <= epoch_no <= epochs)%nat \/ epoch_no = epochs))
    as [Hin | Hout].
  - rewrite (Hfigs epoch_no Hin). reflexivity.
  - rewrite Hframe, Hfresh; [reflexivity | |].
    + apply image_path_not_checkpoint_dir.
    + intros e He Heq. apply image_path_inj in Heq. subst e. contradiction.
Qed.

End FigureFacts.

Lemma display_image_after_train_witness :
  DCGAN.display_image
    (DCGAN.disk
       (fst (DCGAN.train Examples.random_normal0 Examples.generator_train0
               Examples.discriminator_train0 Examples.generator_predict0
               Examples.generator_loss0 Examples.discriminator_loss0
               Examples.tape_gradient0 Examples.apply_gradients0
               Examples.examples0
               (DCGAN.generator_of_noise Examples.generator_train0
                  Examples.discriminator_train0)
               [5; 7] 9 2 Examples.session_with_folder))) 3
  = Os.Failed Os.FileNotFoundError.
Proof.
  rewrite (display_image_after_train Examples.random_normal0
             Examples.generator_train0 Examples.discriminator_train0
             Examples.generator_predict0 Examples.generator_loss0
             Examples.discriminator_loss0 Examples.tape_gradient0
             Examples.apply_gradients0 Examples.examples0
             [5; 7] 9 2%nat 3%nat Examples.session_with_folder).
  - rewrite decide_False by lia. reflexivity.
  - intros g. unfold Examples.examples0. lia.
  - reflexivity.
  - intros e. cbn [DCGAN.disk Examples.session_with_folder].
    apply lookup_singleton_ne. intros Heq. symmetry in Heq.
    apply (image_path_not_images_dir e), Heq.
  - intros p. cbn [DCGAN.disk Examples.session_with_folder].
    rewrite lookup_singleton_ne by discriminate. discriminate.
Defined.

(** ** The animation *)

Import DCGANFiles.

Section GifFacts.

Variable image : Type.
Variable imread : string -> image.
Variable rounded_frame : nat -> Z.

Local Abbreviation gif_loop := (gif_loop image imread rounded_frame).
Local Abbreviation make_gif := (make_gif image imread rounded_frame).
Local Abbreviation gif_state := (gif_state image).

Lemma gif_loop_frames (filenames : list string) (i : nat) (st : gif_state) :
  exists chosen,
    frames image (gif_loop i filenames st)
    = (frames image st ++ map imread chosen)%list
    /\ chosen `sublist_of` filenames
    /\ (rounded_last rounded_frame (DCGANFiles.last image st) < rounded_frame i ->
        head chosen = head filenames).
Proof.
  revert i st. induction filenames as [| f filenames IH]; intros i st.
  - exists []. simpl. rewrite app_nil_r. repeat split. constructor.
  - simpl.
    destruct (Z.ltb_spec (rounded_last rounded_frame (DCGANFiles.last image st))
                         (rounded_frame i)) as [Hlt | Hge].
    + destruct (IH (S i) (GifState image (Some i) (Some f)
                                   (frames image st ++ [imread f])%list))
        as (chosen & Hframes & Hsub & _).
      exists (f :: chosen). rewrite Hframes. simpl. rewrite <- app_assoc.
      repeat split. constructor. exact Hsub.
    + destruct (IH (S i) (GifState image (DCGANFiles.last image st) (Some f)
                                   (frames image st)))
        as (chosen & Hframes & Hsub & _).
      exists chosen. rewrite Hframes. simpl.
      split; [reflexivity |]. split; [constructor; exact Hsub | lia].
Qed.

Lemma gif_loop_filename (init : list string) (f : string) (i : nat)
      (st : gif_state) :
  filename image (gif_loop i (init ++ [f])%list st) = Some f.
Proof.
  revert i st. induction init as [| f0 init IH]; intros i st; simpl.
  - destruct (_ <? _); reflexivity.
  - destruct (_ <? _); apply IH.
Qed.

(** X15: the animation cell fails with NameError when no figure file is
    found, because the file name it reads after the loop was never bound.
    Otherwise the frames it writes are some of the files, in their order,
    followed by the last file once more; and, the rounded frame number of
    the first file being 0, the first file is the first frame. *)
Theorem make_gif_frames (init : list string) (f : string) :
  make_gif [] = Failed NameError
  /\ exists chosen,
      make_gif (init ++ [f])%list = Returned (map imread chosen ++ [imread f])%list
      /\ chosen `sublist_of` (init ++ [f])%list
      /\ (-1 < rounded_frame 0 -> head chosen = head (init ++ [f])%list).
Proof.
  split; [reflexivity |].
  unfold DCGANFiles.make_gif. rewrite gif_loop_filename.
  destruct (gif_loop_frames (init ++ [f])%list 0 (GifState image None None []))
    as (chosen & Hframes & Hsub & Hfirst).
  exists chosen. rewrite Hframes. simpl. auto.
Qed.

End GifFacts.

Lemma make_gif_frames_witness :
  exists chosen,
    make_gif string (fun name => name) (fun i => Z.of_nat i)
             MoreExamples.three_figures
    = Returned (chosen ++ ["./gan_images/image_at_epoch_0003.png"])%list
    /\ head chosen = Some "./gan_images/image_at_epoch_0001.png".
Proof.
  destruct (make_gif_frames string (fun name => name) (fun i => Z.of_nat i)
              (map DCGAN.image_path [1; 2]%nat) (DCGAN.image_path 3))
    as (_ & chosen & Hgif & _ & Hfirst).
  exists chosen. rewrite map_id in Hgif. split; [exact Hgif |].
  apply Hfirst. simpl. lia.
Defined.

